(** * yml2binddb: a shallow embedding of [yml2binddb.py]

    The script reads a YAML zone description, validates it ([parse_yml]),
    normalises the SOA mail address and the host names ([normalize]) and
    prints a BIND zone file ([build_header], [build_forward_db],
    [build_reverse_db]).

    The document returned by [yaml.load] is loosely typed, so it is modelled
    as a tree of Python values.  Printing, [sys.exit] and uncaught exceptions
    are modelled by a small state-and-outcome monad over the three streams
    the script writes to. *)

From Stdlib Require Import ZArith Ascii String.
From stdpp Require Import base option list gmap strings pretty.

Local Open Scope string_scope.
Local Open Scope Z_scope.
Local Open Scope list_scope.

(** ** Python values *)

(** What [yaml.load] can hand to the script.  Mapping keys are strings: the
    script only ever looks up string keys.  A float is kept as its 64-bit
    pattern; the script never computes with it. *)
#[warnings="-register-all"]
Inductive pyval : Type :=
  | PNone
  | PBool (b : bool)
  | PInt (z : Z)
  | PFloat (bits : Z)
  | PStr (s : string)
  | PList (l : list pyval)
  | PDict (d : gmap string pyval).

(** The classes named in the schema tables of [parse_yml]. *)
Inductive pytype : Type := Tstr | Tint | Tdict | Tlist.

(** [isinstance(v, t)]; [bool] is a subclass of [int] in Python. *)
Definition isinstance (v : pyval) (t : pytype) : bool :=
  match t, v with
  | Tstr, PStr _ => true
  | Tint, PInt _ => true
  | Tint, PBool _ => true
  | Tdict, PDict _ => true
  | Tlist, PList _ => true
  | _, _ => false
  end.

(** [str(t)] for a class, as [format] prints it. *)
Definition type_str (t : pytype) : string :=
  match t with
  | Tstr => "<class 'str'>"
  | Tint => "<class 'int'>"
  | Tdict => "<class 'dict'>"
  | Tlist => "<class 'list'>"
  end.

(** [str(ts)] for a list of classes. *)
Fixpoint type_list_items (ts : list pytype) : string :=
  match ts with
  | [] => ""
  | [t] => type_str t
  | t :: ts' => type_str t +:+ ", " +:+ type_list_items ts'
  end.

Definition type_list_str (ts : list pytype) : string :=
  "[" +:+ type_list_items ts +:+ "]".

(** ** String primitives *)

Definition dot : ascii := "."%char.
Definition at_sign : ascii := "@"%char.
Definition dquote : string := String (ascii_of_nat 34) "".

(** [c in s] for a one-character needle. *)
Fixpoint has_char (c : ascii) (s : string) : bool :=
  match s with
  | EmptyString => false
  | String a s' => if Ascii.eqb a c then true else has_char c s'
  end.

(** [s.find('.') != -1] *)
Definition find_dot (s : string) : bool := has_char dot s.

(** [s.split(sep)] for a one-character separator: never empty. *)
Fixpoint py_split (sep : ascii) (s : string) : list string :=
  match s with
  | EmptyString => [EmptyString]
  | String a s' =>
      if Ascii.eqb a sep then EmptyString :: py_split sep s'
      else match py_split sep s' with
           | [] => [String a EmptyString]
           | w :: ws => String a w :: ws
           end
  end.

(** [s.replace(old, new)] for one-character [old] and [new]. *)
Fixpoint py_replace (old new : ascii) (s : string) : string :=
  match s with
  | EmptyString => EmptyString
  | String a s' =>
      String (if Ascii.eqb a old then new else a) (py_replace old new s')
  end.

(** [s.endswith(c)] for a one-character suffix. *)
Fixpoint endswith (c : ascii) (s : string) : bool :=
  match s with
  | EmptyString => false
  | String a EmptyString => Ascii.eqb a c
  | String _ s' => endswith c s'
  end.

(** [needle in s] for strings: substring test. *)
Fixpoint is_substring (needle s : string) : bool :=
  if String.prefix needle s then true
  else match s with
       | EmptyString => false
       | String _ s' => is_substring needle s'
       end.

(** [l[0]] and [l[-1]] on the result of [split]. *)
Definition first_item (l : list string) : string := hd EmptyString l.
Definition last_item (l : list string) : string := List.last l EmptyString.

(** ** Streams, outcomes and the monad of the script *)

(** The exceptions the script can raise and never catches; [OSError]
    stands for what [open] raises on a path it refuses. *)
Inductive exn : Type :=
  KeyError | TypeError | AttributeError | IndexError | OSError.

(** How a call ends: it returns, [sys.exit(code)] was called, or an
    exception propagates. *)
Inductive outcome (A : Type) : Type :=
  | Return (a : A)
  | Exit (code : Z)
  | Raise (e : exn).
Arguments Return {A} a.
Arguments Exit {A} code.
Arguments Raise {A} e.

(** What the process has written so far.  Each element of a stream is the
    text of one [print] call (the newline [print] adds is left implicit).
    [ofile] is the file named by [-o]: [None] until it is opened. *)
Record world : Type := World {
  stdout : list string;
  stderr : list string;
  ofile : option (list string)
}.

Definition M (A : Type) : Type := world -> outcome A * world.

Definition ret {A} (a : A) : M A := fun w => (Return a, w).

Definition bind {A B} (m : M A) (k : A -> M B) : M B :=
  fun w =>
    match m w with
    | (Return a, w') => k a w'
    | (Exit c, w') => (Exit c, w')
    | (Raise e, w') => (Raise e, w')
    end.

#[global] Instance M_ret : MRet M := @ret.
#[global] Instance M_bind : MBind M := fun A B k m => bind m k.

Definition raise {A} (e : exn) : M A := fun w => (Raise e, w).
Definition sys_exit {A} (code : Z) : M A := fun w => (Exit code, w).

(** The streams [print] can write to: [sys.stdout], [sys.stderr] and the
    file opened for [-o]. *)
Inductive handle : Type := Hstdout | Hstderr | Hfile.

(** [print(s, file=h)] *)
Definition print_to (h : handle) (s : string) : M unit :=
  fun w =>
    (Return (),
     match h with
     | Hstdout => World (stdout w ++ [s]) (stderr w) (ofile w)
     | Hstderr => World (stdout w) (stderr w ++ [s]) (ofile w)
     | Hfile => World (stdout w) (stderr w) (Some (default [] (ofile w) ++ [s]))
     end).

(** [print(s)]: no [file] argument, so [sys.stdout]. *)
Definition print (s : string) : M unit := print_to Hstdout s.

(** What the path given with [-o] is to [open]: a file that can be created
    or truncated, or a path [open] refuses (the empty path, a directory, a
    place that cannot be written to). *)
Inductive outfile : Type :=
  | Writable (path : string)
  | Refused (path : string).

(** [open(output, 'w')]: the file is created or truncated, or [OSError] is
    raised and nothing is touched. *)
Definition open_w (output : outfile) : M handle :=
  match output with
  | Writable _ =>
      fun w => (Return Hfile, World (stdout w) (stderr w) (Some []))
  | Refused _ => raise OSError
  end.

(** The exit status of the process for the outcome of [main]: an uncaught
    exception ends the interpreter with status 1. *)
Definition exit_status {A} (o : outcome A) : Z :=
  match o with
  | Return _ => 0
  | Exit c => c
  | Raise _ => 1
  end.

(** [for x in l: body(x)] *)
Fixpoint for_each {A} (l : list A) (body : A -> M unit) : M unit :=
  match l with
  | [] => ret ()
  | x :: l' => body x ;; for_each l' body
  end.

(** [for i, x in enumerate(l): body(i, x)], counting from [i]. *)
Fixpoint for_enumerate {A} (i : Z) (l : list A) (body : Z -> A -> M unit)
  : M unit :=
  match l with
  | [] => ret ()
  | x :: l' => body i x ;; for_enumerate (i + 1) l' body
  end.

(** [if c: body] *)
Definition when (c : bool) (body : M unit) : M unit :=
  if c then body else ret ().

(** ** Operations on values *)

(** [key in v] for a string [key]. *)
Definition py_contains (key : string) (v : pyval) : M bool :=
  match v with
  | PDict d => ret (match d !! key with Some _ => true | None => false end)
  | PStr s => ret (is_substring key s)
  | PList l =>
      ret (existsb (fun x => match x with
                             | PStr s => String.eqb s key
                             | _ => false
                             end) l)
  | _ => raise TypeError
  end.

(** [v[key]] for a string [key]. *)
Definition py_getitem (v : pyval) (key : string) : M pyval :=
  match v with
  | PDict d => match d !! key with
               | Some x => ret x
               | None => raise KeyError
               end
  | _ => raise TypeError
  end.

(** [v[key] = x] for a string [key]; the updated value is returned, where
    Python updates the object in place. *)
Definition py_setitem (v : pyval) (key : string) (x : pyval) : M pyval :=
  match v with
  | PDict d => ret (PDict (<[key := x]> d))
  | _ => raise TypeError
  end.

(** [v[0]] *)
Definition py_getitem0 (v : pyval) : M pyval :=
  match v with
  | PList (x :: _) => ret x
  | PList [] => raise IndexError
  | PStr (String a _) => ret (PStr (String a EmptyString))
  | PStr EmptyString => raise IndexError
  | PDict _ => raise KeyError
  | _ => raise TypeError
  end.

(** The items a [for] loop visits.  Every loop of the script runs over
    [nameservers] or [hosts] after [parse_yml] has checked that they are
    lists; iteration over other iterables is not modelled. *)
Definition py_iter (v : pyval) : M (list pyval) :=
  match v with
  | PList l => ret l
  | _ => raise TypeError
  end.

(** [v.find('.') != -1]: only [str] has a [find] taking a string. *)
Definition py_find_dot (v : pyval) : M bool :=
  match v with
  | PStr s => ret (find_dot s)
  | _ => raise AttributeError
  end.

(** [v.split('.')] *)
Definition py_split_dot (v : pyval) : M (list string) :=
  match v with
  | PStr s => ret (py_split dot s)
  | _ => raise AttributeError
  end.

(** [v.replace('@', '.')] *)
Definition py_replace_at (v : pyval) : M string :=
  match v with
  | PStr s => ret (py_replace at_sign dot s)
  | _ => raise AttributeError
  end.

(** [v.endswith('.')] *)
Definition py_endswith_dot (v : pyval) : M bool :=
  match v with
  | PStr s => ret (endswith dot s)
  | _ => raise AttributeError
  end.

(** ** [parse_yml] *)

(** What the path given on the command line resolves to: no such file, text
    that [yaml.load] rejects with message [err], or a loaded document. *)
Inductive source : Type :=
  | NotFound
  | Malformed (err : string)
  | Loaded (yml_obj : pyval).

Definition TOP_LEVEL_REQUIRED : list (string * pytype) :=
  [("ttl", Tstr); ("domainBase", Tstr); ("networkBase", Tstr);
   ("soa", Tdict); ("nameservers", Tlist); ("hosts", Tlist)].

Definition SOA_REQUIRED : list (string * list pytype) :=
  [("mail", [Tstr]); ("refresh", [Tint; Tstr]); ("retry", [Tint; Tstr]);
   ("expire", [Tint; Tstr]); ("ttl", [Tint; Tstr])].

Definition SOA_OPTIONAL : list (string * pytype) := [("serial", Tint)].

Definition NS_REQUIRED : list string := ["hostname"].

Definition HOST_REQUIRED : list string := ["hostname"; "ip"].

Definition msg_required (key : string) : string :=
  "[ERROR] Required key " +:+ dquote +:+ key +:+ dquote +:+ " Not Found".

Definition msg_must_be (key : string) (t : pytype) : string :=
  "[ERROR] Key " +:+ dquote +:+ key +:+ dquote +:+ " must be " +:+ type_str t.

Definition msg_fqdn : string :=
  "[ERROR] domainBase must be FQDN, end with " +:+ dquote +:+ "." +:+ dquote.

Definition msg_soa_required (key : string) : string :=
  "[ERROR] Required key " +:+ dquote +:+ "soa." +:+ key +:+ dquote
  +:+ " Not Found".

Definition msg_one_of (key : string) (ts : list pytype) : string :=
  "[ERROR] Key " +:+ dquote +:+ key +:+ dquote +:+ " must be one of "
  +:+ type_list_str ts.

Definition msg_entry_required (list_name : string) (i : Z) (key : string)
  : string :=
  "[ERROR] Required key " +:+ dquote +:+ list_name +:+ "[" +:+ pretty i
  +:+ "]." +:+ key +:+ dquote +:+ " Not Found".

(** Body of the loop over [TOP_LEVEL_REQUIRED]. *)
Definition check_top_level (yml_obj : pyval) (key : string * pytype)
  : M unit :=
  present ← py_contains key.1 yml_obj;
  when (negb present) (print (msg_required key.1) ;; sys_exit 1) ;;
  v ← py_getitem yml_obj key.1;
  when (negb (isinstance v key.2))
       (print (msg_must_be key.1 key.2) ;; sys_exit 1).

(** [if not yml_obj['domainBase'].endswith('.')] *)
Definition check_fqdn (yml_obj : pyval) : M unit :=
  domain_base ← py_getitem yml_obj "domainBase";
  ends ← py_endswith_dot domain_base;
  when (negb ends) (print msg_fqdn ;; sys_exit 1).

(** Body of the loop over [SOA_REQUIRED]. *)
Definition check_soa_required (yml_obj : pyval) (key : string * list pytype)
  : M unit :=
  soa ← py_getitem yml_obj "soa";
  present ← py_contains key.1 soa;
  when (negb present) (print (msg_soa_required key.1) ;; sys_exit 1) ;;
  soa ← py_getitem yml_obj "soa";
  v ← py_getitem soa key.1;
  when (negb (existsb (isinstance v) key.2))
       (print (msg_one_of key.1 key.2) ;; sys_exit 1).

(** Body of the loop over [SOA_OPTIONAL]. *)
Definition check_soa_optional (yml_obj : pyval) (key : string * pytype)
  : M unit :=
  soa ← py_getitem yml_obj "soa";
  present ← py_contains key.1 soa;
  when present
       (soa ← py_getitem yml_obj "soa";
        v ← py_getitem soa key.1;
        when (negb (isinstance v key.2))
             (print (msg_must_be key.1 key.2) ;; sys_exit 1)).

(** The checks of [parse_yml] that call [sys.exit]: the loops over
    [TOP_LEVEL_REQUIRED], [SOA_REQUIRED] and [SOA_OPTIONAL] and the test on
    [domainBase]. *)
Definition fatal_checks (yml_obj : pyval) : M unit :=
  for_each TOP_LEVEL_REQUIRED (check_top_level yml_obj) ;;
  check_fqdn yml_obj ;;
  for_each SOA_REQUIRED (check_soa_required yml_obj) ;;
  for_each SOA_OPTIONAL (check_soa_optional yml_obj).

(** Body of the two loops over list entries: one message per required key
    the entry lacks, and no [sys.exit]. *)
Definition check_entry (list_name : string) (required : list string)
    (i : Z) (entry : pyval) : M unit :=
  for_each required (fun key =>
    present ← py_contains key entry;
    when (negb present) (print (msg_entry_required list_name i key)) : M unit).

(** The loops over [nameservers] and [hosts]. *)
Definition entry_checks (yml_obj : pyval) : M unit :=
  nameservers ← py_getitem yml_obj "nameservers";
  nss ← py_iter nameservers;
  for_enumerate 0 nss (check_entry "nameservers" NS_REQUIRED) ;;
  hosts ← py_getitem yml_obj "hosts";
  hs ← py_iter hosts;
  for_enumerate 0 hs (check_entry "hosts" HOST_REQUIRED).

(** ** [normalize] *)

(** [mail.replace('@', '.') + '.'] on a string. *)
Definition normalize_mail (mail : string) : string :=
  py_replace at_sign dot mail +:+ ".".

(** [s.split('.')[0]] on a string. *)
Definition strip_domain (hostname : string) : string :=
  first_item (py_split dot hostname).

(** Body of the two loops of [normalize]; the entry is returned with its
    [hostname] updated, where Python updates the mapping in place. *)
Definition normalize_entry (entry : pyval) : M pyval :=
  hostname ← py_getitem entry "hostname";
  dotted ← py_find_dot hostname;
  if dotted : bool then
    hostname ← py_getitem entry "hostname";
    parts ← py_split_dot hostname;
    py_setitem entry "hostname" (PStr (first_item parts))
  else ret entry.

(** A loop that updates every item it visits. *)
Fixpoint for_each_update (l : list pyval) (body : pyval -> M pyval)
  : M (list pyval) :=
  match l with
  | [] => ret []
  | x :: l' =>
      x' ← body x;
      l'' ← for_each_update l' body;
      ret (x' :: l'')
  end.

(** Values are trees here, so the in-place updates of [normalize] are
    written back into the document.  A YAML alias would make two places of
    the document one mapping; the fields the script reads afterwards get
    the same text either way, because [normalize_entry] changes nothing on
    a second visit. *)
Definition normalize (definition : pyval) : M pyval :=
  soa ← py_getitem definition "soa";
  mail ← py_getitem soa "mail";
  replaced ← py_replace_at mail;
  soa ← py_getitem definition "soa";
  soa ← py_setitem soa "mail" (PStr (replaced +:+ "."));
  definition ← py_setitem definition "soa" soa;
  nameservers ← py_getitem definition "nameservers";
  nss ← py_iter nameservers;
  nss ← for_each_update nss normalize_entry;
  definition ← py_setitem definition "nameservers" (PList nss);
  hosts ← py_getitem definition "hosts";
  hs ← py_iter hosts;
  hs ← for_each_update hs normalize_entry;
  definition ← py_setitem definition "hosts" (PList hs);
  ret definition.

Definition parse_yml (src : source) : M pyval :=
  match src with
  | NotFound =>
      print_to Hstderr "[ERROR] File Not Found: Please check file path." ;;
      sys_exit 1
  | Malformed err =>
      print_to Hstderr "[ERROR] YAML Parse error:" ;;
      print_to Hstderr err ;;
      sys_exit 1
  | Loaded yml_obj =>
      fatal_checks yml_obj ;;
      entry_checks yml_obj ;;
      normalize yml_obj
  end.

(** ** The emitters *)

Definition newline : string := String (ascii_of_nat 10) "".

Section Emitter.

(** [str(v)] for a float or a container, which [format] prints through
    Python's own [repr]; the script only passes it on. *)
Variable str_other : pyval -> string.

(** What [format] puts in place of a brace pair for [v]. *)
Definition py_str (v : pyval) : string :=
  match v with
  | PNone => "None"
  | PBool true => "True"
  | PBool false => "False"
  | PInt z => pretty z
  | PStr s => s
  | _ => str_other v
  end.

(** The loop of [build_header] that looks for the first name server with
    a [master] key and stops there; [PNone] when the loop runs out. *)
Fixpoint find_master (nss : list pyval) : M pyval :=
  match nss with
  | [] => ret PNone
  | ns :: nss' =>
      is_master ← py_contains "master" ns;
      if is_master : bool then py_getitem ns "hostname"
      else find_master nss'
  end.

Definition soa_line (domain_base pri_dns zone mail : pyval) : string :=
  py_str domain_base +:+ " IN SOA " +:+ py_str pri_dns +:+ "."
  +:+ py_str zone +:+ " " +:+ py_str mail +:+ " (".

Definition soa_fields (refresh retry expire ttl : pyval) : string :=
  "    " +:+ py_str refresh +:+ "  ; refresh" +:+ newline
  +:+ "    " +:+ py_str retry +:+ "  ; retry" +:+ newline
  +:+ "    " +:+ py_str expire +:+ "  ; expire" +:+ newline
  +:+ "    " +:+ py_str ttl +:+ "  ; ttl".

Definition build_header (ohandler : handle) (definition : pyval)
    (dont_abbrev : bool) : M unit :=
  ttl ← py_getitem definition "ttl";
  print_to ohandler ("$TTL " +:+ py_str ttl +:+ newline) ;;
  nameservers ← py_getitem definition "nameservers";
  nss ← py_iter nameservers;
  pri_dns ← find_master nss;
  pri_dns ← match pri_dns with
            | PNone =>
                nameservers ← py_getitem definition "nameservers";
                first ← py_getitem0 nameservers;
                py_getitem first "hostname"
            | _ => ret pri_dns
            end;
  domain_base ← (if dont_abbrev then py_getitem definition "domainBase"
                 else ret (PStr "@"));
  zone ← py_getitem definition "domainBase";
  soa ← py_getitem definition "soa";
  mail ← py_getitem soa "mail";
  print_to ohandler (soa_line domain_base pri_dns zone mail) ;;
  soa ← py_getitem definition "soa";
  refresh ← py_getitem soa "refresh";
  soa ← py_getitem definition "soa";
  retry ← py_getitem soa "retry";
  soa ← py_getitem definition "soa";
  expire ← py_getitem soa "expire";
  soa ← py_getitem definition "soa";
  ttl ← py_getitem soa "ttl";
  print_to ohandler (soa_fields refresh retry expire ttl) ;;
  print_to ohandler (")" +:+ newline).

(** The name printed for an entry in the forward zone: [hostname] of both
    NS loops and of the A/TXT loop of [build_forward_db]. *)
Definition entry_name (definition entry : pyval) (dont_abbrev : bool)
  : M string :=
  if dont_abbrev then
    hostname ← py_getitem entry "hostname";
    zone ← py_getitem definition "domainBase";
    ret (py_str hostname +:+ "." +:+ py_str zone)
  else
    hostname ← py_getitem entry "hostname";
    ret (py_str hostname).

Definition ns_line (hostname : string) : string := "    IN NS " +:+ hostname.

(** The NS loop, the same in both directions, and the empty line after
    it. *)
Definition build_ns (ohandler : handle) (definition : pyval)
    (dont_abbrev : bool) : M unit :=
  nameservers ← py_getitem definition "nameservers";
  nss ← py_iter nameservers;
  for_each nss (fun ns =>
    hostname ← entry_name definition ns dont_abbrev;
    print_to ohandler (ns_line hostname)) ;;
  print_to ohandler "".

Definition a_line (hostname : string) (ip : pyval) : string :=
  hostname +:+ "   IN A   " +:+ py_str ip.

Definition forward_txt_line (hostname : string) (description : pyval)
  : string :=
  hostname +:+ "   IN TXT " +:+ dquote +:+ py_str description +:+ dquote.

(** Body of the A/TXT loop.  In the source [file=ohandler] of the TXT
    line is an argument of [format], which ignores it, and [print] has no
    [file]: the TXT line goes to [sys.stdout]. *)
Definition forward_host (ohandler : handle) (definition : pyval)
    (dont_abbrev : bool) (host : pyval) : M unit :=
  hostname ← entry_name definition host dont_abbrev;
  ip ← py_getitem host "ip";
  print_to ohandler (a_line hostname ip) ;;
  described ← py_contains "description" host;
  when described
       (description ← py_getitem host "description";
        print (forward_txt_line hostname description)).

Definition build_forward_db (ohandler : handle) (definition : pyval)
    (dont_abbrev : bool) : M unit :=
  build_header ohandler definition dont_abbrev ;;
  build_ns ohandler definition dont_abbrev ;;
  hosts ← py_getitem definition "hosts";
  hs ← py_iter hosts;
  for_each hs (forward_host ohandler definition dont_abbrev).

Definition ptr_line (ip fqdn : string) : string :=
  ip +:+ "    IN PTR " +:+ fqdn.

Definition reverse_txt_line (ip : string) (description : pyval) : string :=
  ip +:+ "    IN TXT " +:+ dquote +:+ py_str description +:+ dquote.

(** Body of the PTR/TXT loop. *)
Definition reverse_host (ohandler : handle) (definition : pyval)
    (dont_abbrev : bool) (host : pyval) : M unit :=
  ip ← (if dont_abbrev then
          ip ← py_getitem host "ip";
          ret (py_str ip)
        else
          ip ← py_getitem host "ip";
          parts ← py_split_dot ip;
          ret (last_item parts));
  hostname ← py_getitem host "hostname";
  zone ← py_getitem definition "domainBase";
  print_to ohandler
    (ptr_line ip (py_str hostname +:+ "." +:+ py_str zone)) ;;
  described ← py_contains "description" host;
  when described
       (description ← py_getitem host "description";
        print_to ohandler (reverse_txt_line ip description)).

Definition build_reverse_db (ohandler : handle) (definition : pyval)
    (dont_abbrev : bool) : M unit :=
  build_header ohandler definition dont_abbrev ;;
  build_ns ohandler definition dont_abbrev ;;
  hosts ← py_getitem definition "hosts";
  hs ← py_iter hosts;
  for_each hs (reverse_host ohandler definition dont_abbrev).

(** [main], with the command line already parsed: [src] is what the
    [YAML] path resolves to, [output] the value of [-o].  [main] is
    embedded as written, for any pair of flags; [parse_args] puts [-f] and
    [-r] in a required, mutually exclusive group, so the runs that can
    happen have exactly one of [forward] and [reverse] set (see
    [exclusive] below).  Closing the output file at the end writes nothing
    more. *)
Definition main (src : source) (output : option outfile)
    (dont_abbrev forward reverse : bool) : M unit :=
  definition ← parse_yml src;
  ohandler ← match output with
             | Some path => open_w path
             | None => ret Hstdout
             end;
  (if forward then build_forward_db ohandler definition dont_abbrev
   else if reverse then build_reverse_db ohandler definition dont_abbrev
   else ret ()) ;;
  ret ().

End Emitter.

(** The state of a fresh process. *)
Definition world0 : world := World [] [] None.


(** ** Vocabulary of the statements *)

(** [v[key]] read off a value, when [v] is a mapping that has the key. *)
Definition field (v : pyval) (key : string) : option pyval :=
  match v with
  | PDict d => d !! key
  | _ => None
  end.

(** The entries of the list stored under [key]. *)
Definition entries (v : pyval) (key : string) : list pyval :=
  match field v key with
  | Some (PList l) => l
  | _ => []
  end.

(** The text stored under [key]. *)
Definition text (v : pyval) (key : string) : string :=
  match field v key with
  | Some (PStr s) => s
  | _ => ""
  end.

(** [v[key]], or [None] where the lookup has no value. *)
Definition value (v : pyval) (key : string) : pyval :=
  default PNone (field v key).

(** The state after one [print], and after a sequence of them. *)
Definition write (h : handle) (s : string) (w : world) : world :=
  (print_to h s w).2.

Definition write_all (events : list (handle * string)) (w : world) : world :=
  foldl (fun w ev => write ev.1 ev.2 w) w events.

(** Lines printed one after the other on one stream. *)
Definition to_handle (h : handle) (lines : list string)
  : list (handle * string) :=
  map (fun line => (h, line)) lines.


(** A computation that writes nothing on [sys.stderr]. *)
Definition keeps_stderr {A} (m : M A) : Prop :=
  forall w, stderr (m w).2 = stderr w.

(** *** Validation *)

(** The type test on the [soa] timers. *)
Definition int_or_str (v : pyval) : bool := existsb (isinstance v) [Tint; Tstr].

(** A document on which every check of [fatal_checks] succeeds. *)
Inductive fatal_ok : pyval -> Prop :=
  | Fatal_ok (dm soa : gmap string pyval) (ttl zone net mail : string)
      (nss hs : list pyval) :
      dm !! "ttl" = Some (PStr ttl) ->
      dm !! "domainBase" = Some (PStr zone) ->
      dm !! "networkBase" = Some (PStr net) ->
      dm !! "soa" = Some (PDict soa) ->
      dm !! "nameservers" = Some (PList nss) ->
      dm !! "hosts" = Some (PList hs) ->
      endswith dot zone = true ->
      soa !! "mail" = Some (PStr mail) ->
      (forall k, k ∈ ["refresh"; "retry"; "expire"; "ttl"] ->
                 exists v, soa !! k = Some v /\ int_or_str v = true) ->
      (forall v, soa !! "serial" = Some v -> isinstance v Tint = true) ->
      fatal_ok (PDict dm).

(** [key] is missing from [v], or what it holds fails the test [ok].  A
    value that is no mapping has no key at all. *)
Definition lacks (v : pyval) (key : string) (ok : pyval -> bool) : Prop :=
  match field v key with
  | Some x => ok x = false
  | None => True
  end.

(** The schema violations the specification calls fatal: a top-level key
    missing or of the wrong class, a zone name without its final dot, a
    required [soa] key missing or of the wrong class.  The class test is
    Python's [isinstance], under which a boolean is an [int]. *)
Inductive fatal_violation (yml_obj : pyval) : Prop :=
  | Top_level_key (key : string) (t : pytype) :
      (key, t) ∈ TOP_LEVEL_REQUIRED ->
      lacks yml_obj key (fun x => isinstance x t) ->
      fatal_violation yml_obj
  | Not_fqdn (zone : string) :
      field yml_obj "domainBase" = Some (PStr zone) ->
      endswith dot zone = false ->
      fatal_violation yml_obj
  | Soa_key (key : string) (ts : list pytype) :
      (key, ts) ∈ SOA_REQUIRED ->
      lacks (value yml_obj "soa") key (fun x => existsb (isinstance x) ts) ->
      fatal_violation yml_obj.

(** How a failed check leaves the process, started in [w]: a non-zero exit
    status, nothing on [sys.stderr] or in the output file, and at most one
    message on [sys.stdout]. *)
Definition aborted (r : outcome unit * world) (w : world) : Prop :=
  exit_status r.1 <> 0 /\
  stderr r.2 = stderr w /\ ofile r.2 = ofile w /\
  (stdout r.2 = stdout w \/ exists msg, stdout r.2 = stdout w ++ [msg]).



Definition is_dict (v : pyval) : bool :=
  match v with PDict _ => true | _ => false end.

(** *** Normalization *)

(** An entry whose [hostname] is a string. *)
Definition named (entry : pyval) : bool :=
  match field entry "hostname" with
  | Some (PStr _) => true
  | _ => false
  end.

(** An entry whose [hostname] is a string without a dot: a bare label. *)
Definition bare (entry : pyval) : bool :=
  match field entry "hostname" with
  | Some (PStr hostname) => negb (find_dot hostname)
  | _ => false
  end.

(** Specified normalization of an entry: [hostname] becomes what stands
    before its first dot. *)
Definition normalized_entry (entry : pyval) : pyval :=
  match entry with
  | PDict em =>
      match em !! "hostname" with
      | Some (PStr hostname) =>
          PDict (<["hostname" := PStr (strip_domain hostname)]> em)
      | _ => entry
      end
  | _ => entry
  end.

Definition soa_of (raw : pyval) : gmap string pyval :=
  match field raw "soa" with
  | Some (PDict soa) => soa
  | _ => ∅
  end.

(** Specified normalization of a document: the mail address of [soa] and
    the [hostname] of every name server and host are rewritten, nothing
    else changes.  [normalize] is compared with it below. *)
Definition normalized_doc (raw : pyval) : pyval :=
  match raw with
  | PDict dm =>
      PDict
        (<["hosts" := PList (normalized_entry <$> entries raw "hosts")]>
           (<["nameservers" :=
                PList (normalized_entry <$> entries raw "nameservers")]>
              (<["soa" :=
                   PDict (<["mail" :=
                              PStr (normalize_mail
                                      (text (PDict (soa_of raw)) "mail"))]>
                            (soa_of raw))]> dm)))
  | _ => raw
  end.

(** What [parse_yml] guarantees of the document it returns, as far as the
    emitters read it. *)
Inductive ready : pyval -> Prop :=
  | Ready (dm soa : gmap string pyval) (ttl zone mail : string)
      (nss hs : list pyval) :
      dm !! "ttl" = Some (PStr ttl) ->
      dm !! "domainBase" = Some (PStr zone) ->
      dm !! "soa" = Some (PDict soa) ->
      soa !! "mail" = Some (PStr mail) ->
      (forall k, k ∈ ["refresh"; "retry"; "expire"; "ttl"] ->
                 is_Some (soa !! k)) ->
      dm !! "nameservers" = Some (PList nss) ->
      dm !! "hosts" = Some (PList hs) ->
      forallb bare nss = true ->
      forallb bare hs = true ->
      ready (PDict dm).

(** *** Emission *)

(** The [master] key is present, whatever it holds. *)
Definition has_master (entry : pyval) : bool :=
  match field entry "master" with Some _ => true | None => false end.

(** Specified primary name server: the first entry with a [master] key,
    else the entry at index 0. *)
Definition primary_ns (nss : list pyval) : option pyval :=
  match List.find has_master nss with
  | Some ns => Some ns
  | None => head nss
  end.

(** The host has an [ip]; with [need_str], a string one. *)
Definition has_ip (need_str : bool) (host : pyval) : bool :=
  match field host "ip" with
  | Some (PStr _) => true
  | Some _ => negb need_str
  | None => false
  end.

Section EmitterSpec.

Variable str_other : pyval -> string.

(** The fully qualified name of an entry, and the name a forward zone
    prints for it. *)
Definition fqdn (d entry : pyval) : string :=
  text entry "hostname" +:+ "." +:+ text d "domainBase".

Definition record_name (d entry : pyval) (dont_abbrev : bool) : string :=
  if dont_abbrev then fqdn d entry else text entry "hostname".

(** Specified header: the TTL line, the SOA line naming the primary name
    server, the four timers and the closing parenthesis. *)
Definition header (d : pyval) (dont_abbrev : bool) : list string :=
  [ "$TTL " +:+ text d "ttl" +:+ newline;
    (if dont_abbrev then text d "domainBase" else "@") +:+ " IN SOA "
    +:+ text (default PNone (primary_ns (entries d "nameservers")))
             "hostname"
    +:+ "." +:+ text d "domainBase" +:+ " "
    +:+ text (value d "soa") "mail" +:+ " (";
    soa_fields str_other (value (value d "soa") "refresh")
      (value (value d "soa") "retry") (value (value d "soa") "expire")
      (value (value d "soa") "ttl");
    ")" +:+ newline ].

(** Specified NS block: one line per name server, then an empty line. *)
Definition ns_records (d : pyval) (dont_abbrev : bool) : list string :=
  map (fun ns => ns_line (record_name d ns dont_abbrev))
      (entries d "nameservers")
  ++ [""].

(** What [forward_host] prints for a host, in closed form: the A line on
    the sink and, for a described host, the TXT line on [sys.stdout]. *)
Definition forward_records (h : handle) (d : pyval) (dont_abbrev : bool)
    (host : pyval) : list (handle * string) :=
  (h, a_line str_other (record_name d host dont_abbrev) (value host "ip"))
  :: match field host "description" with
     | Some description =>
         [(Hstdout,
           forward_txt_line str_other (record_name d host dont_abbrev)
                            description)]
     | None => []
     end.

(** The owner of a PTR line: the whole [ip], or what stands after its
    last dot. *)
Definition ptr_owner (dont_abbrev : bool) (host : pyval) : string :=
  if dont_abbrev then py_str str_other (value host "ip")
  else last_item (py_split dot (text host "ip")).

(** Specified reverse records of a host: the PTR line, then the TXT line
    of a described host, both on the sink. *)
Definition reverse_records (h : handle) (d : pyval) (dont_abbrev : bool)
    (host : pyval) : list (handle * string) :=
  (h, ptr_line (ptr_owner dont_abbrev host) (fqdn d host))
  :: match field host "description" with
     | Some description =>
         [(h, reverse_txt_line str_other (ptr_owner dont_abbrev host)
                               description)]
     | None => []
     end.

End EmitterSpec.

(** ** Sample documents *)

Definition dict (items : list (string * pyval)) : pyval :=
  PDict (list_to_map items).

Definition sample_soa : pyval :=
  dict [("mail", PStr "admin@example.com"); ("refresh", PInt 3600);
        ("retry", PInt 900); ("expire", PInt 604800); ("ttl", PInt 86400)].

(** A zone [example.com.] with the given name servers and hosts. *)
Definition sample (nameservers hosts : list pyval) : pyval :=
  dict [("ttl", PStr "3600"); ("domainBase", PStr "example.com.");
        ("networkBase", PStr "10.0.0"); ("soa", sample_soa);
        ("nameservers", PList nameservers); ("hosts", PList hosts)].

Definition ns1 : pyval :=
  dict [("hostname", PStr "ns1"); ("master", PBool true)].
Definition ns2 : pyval := dict [("hostname", PStr "ns2")].
Definition www : pyval :=
  dict [("hostname", PStr "www"); ("ip", PStr "10.0.0.5")].
Definition www_described : pyval :=
  dict [("hostname", PStr "www"); ("ip", PStr "10.0.0.5");
        ("description", PStr "web server")].
Definition www_no_ip : pyval := dict [("hostname", PStr "www.example.com")].

Definition sample_zone : pyval := sample [ns2; ns1] [www].
Definition sample_no_ns : pyval := sample [] [www].

(** [sample_zone] without its [domainBase]. *)
Definition sample_no_zone : pyval :=
  dict [("ttl", PStr "3600"); ("networkBase", PStr "10.0.0");
        ("soa", sample_soa); ("nameservers", PList [ns1]);
        ("hosts", PList [www])].

(** No sample holds a float or a container where text is printed. *)
Definition no_repr (v : pyval) : string := "".

(** A computation that leaves the part [f] of the state as it found it,
    however it ends. *)
Definition keeps {A X : Type} (f : world -> X) (m : M A) : Prop :=
  forall w, f (m w).2 = f w.

(** A computation that never ends by [sys.exit]. *)
Definition never_exits {A : Type} (m : M A) : Prop :=
  forall w c, (m w).1 <> Exit c.

(** A sample whose [soa] has a [serial]. *)
Definition soa_with_serial (serial : pyval) : pyval :=
  dict [("mail", PStr "admin@example.com"); ("refresh", PInt 3600);
        ("retry", PInt 900); ("expire", PInt 604800); ("ttl", PInt 86400);
        ("serial", serial)].

Definition sample_with_serial (serial : pyval) : pyval :=
  dict [("ttl", PStr "3600"); ("domainBase", PStr "example.com.");
        ("networkBase", PStr "10.0.0"); ("soa", soa_with_serial serial);
        ("nameservers", PList [ns1]); ("hosts", PList [www])].

(** A host whose [ip] YAML reads as an integer. *)
Definition www_int_ip : pyval := dict [("hostname", PStr "www"); ("ip", PInt 5)].

(** ** The lines of a zone *)
Section ZoneLines.

Variable str_other : pyval -> string.




End ZoneLines.

(** The mapping a value is, if it is one. *)
Definition mapping_of (v : pyval) : gmap string pyval :=
  match v with
  | PDict d => d
  | _ => ∅
  end.

(** * Properties *)

(** ** Strings *)

Section Strings.



(** Without a separator [split] gives the string back as its only item. *)
Lemma py_split_no_sep sep s :
  has_char sep s = false -> py_split sep s = [s].
Proof.
  induction s as [|a s IH]; simpl; [done|].
  destruct (Ascii.eqb a sep); [done|].
  intros H. by rewrite (IH H).
Qed.


Lemma py_split_first_no_sep sep s :
  has_char sep (first_item (py_split sep s)) = false.
Proof.
  induction s as [|a s IH]; simpl; [done|].
  destruct (Ascii.eqb a sep) eqn:E; [done|].
  unfold first_item in *.
  destruct (py_split sep s) as [|x xs]; simpl in *; by rewrite E.
Qed.










End Strings.

(** ** The monad *)

Section Monad.

Context {A B : Type}.

Lemma bind_run (m : M A) (k : A -> M B) (w : world) :
  (m ≫= k) w = match m w with
                | (Return a, w') => k a w'
                | (Exit c, w') => (Exit c, w')
                | (Raise e, w') => (Raise e, w')
                end.
Proof. reflexivity. Qed.

Lemma for_each_cons (x : A) l (body : A -> M unit) w :
  for_each (x :: l) body w
  = match body x w with
    | (Return _, w') => for_each l body w'
    | (Exit c, w') => (Exit c, w')
    | (Raise e, w') => (Raise e, w')
    end.
Proof. reflexivity. Qed.

End Monad.

Lemma write_all_app evs1 evs2 w :
  write_all (evs1 ++ evs2) w = write_all evs2 (write_all evs1 w).
Proof. apply foldl_app. Qed.

(** Runs a computation as far as the goal determines it. *)
Ltac run :=
  repeat first
    [ rewrite bind_run
    | progress cbv beta iota delta
        [when ret raise sys_exit print py_getitem py_contains py_setitem
         py_iter py_find_dot py_split_dot py_replace_at py_endswith_dot
         py_getitem0 negb fst snd mret M_ret] ].

(** ** The fatal checks *)

Section Validator.

Implicit Types (dm soa : gmap string pyval) (w : world).

Lemma check_top_level_dict dm k t w :
  check_top_level (PDict dm) (k, t) w
  = match dm !! k with
    | None => (Exit 1, write Hstdout (msg_required k) w)
    | Some v =>
        if isinstance v t then (Return (), w)
        else (Exit 1, write Hstdout (msg_must_be k t) w)
    end.
Proof.
  unfold check_top_level. run.
  destruct (dm !! k) as [v|] eqn:E; run; [|done]. rewrite ?E.
  destruct (isinstance v t); reflexivity.
Qed.

Lemma check_soa_required_dict dm soa k ts w :
  dm !! "soa" = Some (PDict soa) ->
  check_soa_required (PDict dm) (k, ts) w
  = match soa !! k with
    | None => (Exit 1, write Hstdout (msg_soa_required k) w)
    | Some v =>
        if existsb (isinstance v) ts then (Return (), w)
        else (Exit 1, write Hstdout (msg_one_of k ts) w)
    end.
Proof.
  intros Hsoa. unfold check_soa_required. run. rewrite Hsoa. run.
  destruct (soa !! k) as [v|] eqn:E; run; [|done]. rewrite ?E.
  destruct (existsb (isinstance v) ts); reflexivity.
Qed.

Lemma check_soa_optional_dict dm soa k t w :
  dm !! "soa" = Some (PDict soa) ->
  check_soa_optional (PDict dm) (k, t) w
  = match soa !! k with
    | None => (Return (), w)
    | Some v =>
        if isinstance v t then (Return (), w)
        else (Exit 1, write Hstdout (msg_must_be k t) w)
    end.
Proof.
  intros Hsoa. unfold check_soa_optional. run. rewrite Hsoa. run.
  destruct (soa !! k) as [v|] eqn:E; run; [|done]. rewrite ?E.
  destruct (isinstance v t); reflexivity.
Qed.

Lemma check_fqdn_dict dm zone w :
  dm !! "domainBase" = Some (PStr zone) ->
  check_fqdn (PDict dm) w
  = if endswith dot zone then (Return (), w)
    else (Exit 1, write Hstdout msg_fqdn w).
Proof.
  intros H. unfold check_fqdn. run. rewrite H. run.
  destruct (endswith dot zone); reflexivity.
Qed.

Lemma aborted_exit msg w : aborted (Exit 1, write Hstdout msg w) w.
Proof. repeat split; simpl; eauto. Qed.

Lemma aborted_raise e w : aborted (Raise e, w) w.
Proof. repeat split; simpl; eauto. Qed.

Lemma fatal_ok_inv dm soa zone :
  fatal_ok (PDict dm) ->
  dm !! "soa" = Some (PDict soa) ->
  dm !! "domainBase" = Some (PStr zone) ->
  endswith dot zone = true
  /\ (exists mail, soa !! "mail" = Some (PStr mail))
  /\ (forall k, k ∈ ["refresh"; "retry"; "expire"; "ttl"] ->
                exists v, soa !! k = Some v /\ int_or_str v = true)
  /\ (forall v, soa !! "serial" = Some v -> isinstance v Tint = true).
Proof.
  inversion 1; subst. intros Hs Hz.
  assert (soa0 = soa) by congruence. assert (zone0 = zone) by congruence.
  subst. eauto 10.
Qed.

Lemma fatal_ok_top dm :
  fatal_ok (PDict dm) ->
  (exists s, dm !! "ttl" = Some (PStr s))
  /\ (exists s, dm !! "domainBase" = Some (PStr s))
  /\ (exists s, dm !! "networkBase" = Some (PStr s))
  /\ (exists d, dm !! "soa" = Some (PDict d))
  /\ (exists l, dm !! "nameservers" = Some (PList l))
  /\ (exists l, dm !! "hosts" = Some (PList l)).
Proof. inversion 1; subst. repeat split; eauto. Qed.

(** A top-level key is absent or of the wrong class: not [fatal_ok]. *)
Ltac not_ok_top :=
  let H := fresh in
  intros H; apply fatal_ok_top in H;
  destruct H as ((? & ?) & (? & ?) & (? & ?) & (? & ?) & (? & ?) & (? & ?));
  congruence.

(** One round of the loop over [TOP_LEVEL_REQUIRED]. *)
Ltac top_key v E :=
  rewrite for_each_cons, check_top_level_dict;
  match goal with
  | |- context [match ?d !! ?k with _ => _ end] =>
      destruct (d !! k) as [v|] eqn:E;
      [|right; split; [not_ok_top|apply aborted_exit]];
      destruct v;
      try (right; split; [not_ok_top|apply aborted_exit]);
      cbv beta iota delta [isinstance]
  end.

(** The zone name or a key of [soa] fails its check: not [fatal_ok]. *)
Ltac not_ok_soa Hsoa Hzone :=
  let H := fresh in
  let Hz := fresh in let Hm := fresh in
  let Ht := fresh in let Hs := fresh in
  intros H;
  destruct (fatal_ok_inv _ _ _ H Hsoa Hzone) as (Hz & [? Hm] & Ht & Hs);
  first
    [ congruence
    | match goal with
      | T : existsb (isinstance ?v) [Tstr] = false,
        F : _ !! "mail" = Some ?v |- _ =>
          rewrite Hm in F; injection F as <-; discriminate T
      | E : ?d !! ?k = _ |- _ =>
          destruct (Ht k) as (? & ? & ?); [by repeat constructor|];
          unfold int_or_str in *; congruence
      | E : ?d !! "serial" = Some ?v |- _ =>
          specialize (Hs _ E); congruence
      end ].

(** One round of the loop over [SOA_REQUIRED]. *)
Ltac soa_key Hsoa Hzone v E T :=
  rewrite for_each_cons, (check_soa_required_dict _ _ _ _ _ Hsoa);
  match goal with
  | |- context [match ?d !! ?k with _ => _ end] =>
      destruct (d !! k) as [v|] eqn:E;
      [|right; split; [not_ok_soa Hsoa Hzone|apply aborted_exit]];
      destruct (existsb (isinstance v) _) eqn:T;
      [|right; split; [not_ok_soa Hsoa Hzone|apply aborted_exit]]
  end.

(** The fatal checks either all succeed, silently, or the first one that
    fails ends the process. *)
Lemma fatal_checks_spec yml_obj w :
  (fatal_ok yml_obj /\ fatal_checks yml_obj w = (Return (), w))
  \/ (~ fatal_ok yml_obj /\ aborted (fatal_checks yml_obj w) w).
Proof.
  destruct yml_obj as [| | | |s|l|dm];
    try (right; split; [inversion 1|apply aborted_raise]).
  - right; split; [inversion 1|].
    unfold fatal_checks, TOP_LEVEL_REQUIRED. rewrite bind_run, for_each_cons.
    unfold check_top_level. run.
    destruct (is_substring "ttl" s); run;
      [apply aborted_raise|apply aborted_exit].
  - right; split; [inversion 1|].
    unfold fatal_checks, TOP_LEVEL_REQUIRED. rewrite bind_run, for_each_cons.
    unfold check_top_level. run.
    destruct (existsb _ l); run; [apply aborted_raise|apply aborted_exit].
  - unfold fatal_checks, TOP_LEVEL_REQUIRED, SOA_REQUIRED, SOA_OPTIONAL.
    rewrite bind_run.
    top_key v1 E1. top_key v2 E2. top_key v3 E3. top_key v4 E4.
    top_key v5 E5. top_key v6 E6.
    change (for_each [] (check_top_level (PDict dm)) w) with (Return (), w).
    cbv beta iota. rewrite bind_run, (check_fqdn_dict _ _ _ E2).
    destruct (endswith dot s0) eqn:Ez;
      [|right; split; [not_ok_soa E4 E2|apply aborted_exit]].
    rewrite bind_run.
    soa_key E4 E2 m1 F1 T1. soa_key E4 E2 m2 F2 T2. soa_key E4 E2 m3 F3 T3.
    soa_key E4 E2 m4 F4 T4. soa_key E4 E2 m5 F5 T5.
    change (for_each [] (check_soa_required (PDict dm)) w)
      with (Return (), w).
    cbv beta iota.
    rewrite for_each_cons, (check_soa_optional_dict _ _ _ _ _ E4).
    assert (exists mail, m1 = PStr mail) as [mail ->]
      by (destruct m1; try discriminate T1; eauto).
    assert (forall k, k ∈ ["refresh"; "retry"; "expire"; "ttl"] ->
                      exists v, d !! k = Some v /\ int_or_str v = true)
      as Htimers.
    { intros k Hk.
      repeat (apply elem_of_cons in Hk as [->|Hk]; [by eauto|]).
      by apply elem_of_nil in Hk. }
    destruct (d !! "serial") as [v|] eqn:Es;
      [destruct (isinstance v Tint) eqn:Ts|].
    + left. split; [|done]. econstructor; eauto. congruence.
    + right. split; [not_ok_soa E4 E2|apply aborted_exit].
    + left. split; [|done]. econstructor; eauto. congruence.
Qed.

End Validator.

(** ** The entry checks and the loops of [normalize] *)

Section Entries.
Implicit Types (dm em : gmap string pyval) (w : world).




Lemma normalize_entry_named e w :
  named e = true ->
  normalize_entry e w = (Return (normalized_entry e), w).
Proof.
  unfold named, normalize_entry, normalized_entry, field.
  destruct e as [| | | | | |em]; try done.
  destruct (em !! "hostname") as [[| | | |hn| |]|] eqn:E; try done.
  intros _. run. rewrite E. run.
  destruct (find_dot hn) eqn:Hd; run.
  - done.
  - unfold strip_domain. rewrite (py_split_no_sep _ _ Hd). simpl.
    by rewrite insert_id.
Qed.

Lemma normalize_entry_unnamed e w :
  named e = false -> exists x, normalize_entry e w = (Raise x, w).
Proof.
  unfold named, normalize_entry, field.
  destruct e as [| | | | | |em]; try (by eexists).
  destruct (em !! "hostname") as [[| | | |hn| |]|] eqn:E; try done;
    intros _; run; rewrite E; run; by eexists.
Qed.

Lemma for_each_update_cons e l body w :
  for_each_update (e :: l) body w
  = match body e w with
    | (Return e', w') =>
        match for_each_update l body w' with
        | (Return l', w'') => (Return (e' :: l'), w'')
        | (Exit c, w'') => (Exit c, w'')
        | (Raise x, w'') => (Raise x, w'')
        end
    | (Exit c, w') => (Exit c, w')
    | (Raise x, w') => (Raise x, w')
    end.
Proof.
  simpl. rewrite bind_run.
  destruct (body e w) as [[e'|c|x] w']; try done;
    rewrite bind_run;
    by destruct (for_each_update l body w') as [[l'|c|x] w''].
Qed.

Lemma for_each_update_named l w :
  forallb named l = true ->
  for_each_update l normalize_entry w = (Return (normalized_entry <$> l), w).
Proof.
  induction l as [|e l IH]; [done|]. simpl forallb. intros H.
  apply andb_prop in H as [He Hl].
  by rewrite for_each_update_cons, (normalize_entry_named _ _ He), (IH Hl).
Qed.

Lemma for_each_update_unnamed l w :
  forallb named l = false ->
  exists x, for_each_update l normalize_entry w = (Raise x, w).
Proof.
  induction l as [|e l IH]; [done|]. simpl forallb. intros H.
  rewrite for_each_update_cons.
  destruct (named e) eqn:He.
  - rewrite (normalize_entry_named _ _ He). simpl in H.
    destruct (IH H) as [x ->]. by eexists.
  - destruct (normalize_entry_unnamed _ w He) as [x ->]. by eexists.
Qed.

End Entries.

(** ** [normalize] on a validated document *)

Section Normalize.
Implicit Types (dm em : gmap string pyval) (w : world).

Lemma normalize_named raw w :
  fatal_ok raw ->
  forallb named (entries raw "nameservers") = true ->
  forallb named (entries raw "hosts") = true ->
  normalize raw w = (Return (normalized_doc raw), w).
Proof.
  intros Hok. destruct Hok as [dm soa ttl zone net mail nss hs
    Httl Hzone Hnet Hsoa Hnss Hhs Hdot Hmail Htimers Hserial].
  unfold entries, normalized_doc, soa_of, text, entries, field.
  rewrite Hsoa, Hnss, Hhs, Hmail. intros Hn Hh.
  unfold normalize. run. rewrite Hsoa. run. rewrite Hmail. run.
  rewrite lookup_insert_ne by done. rewrite Hnss. run.
  rewrite (for_each_update_named _ _ Hn). run.
  rewrite lookup_insert_ne by done. rewrite lookup_insert_ne by done.
  rewrite Hhs. run.
  rewrite (for_each_update_named _ _ Hh). run. done.
Qed.

Lemma normalize_unnamed raw w :
  fatal_ok raw ->
  forallb named (entries raw "nameservers")
  && forallb named (entries raw "hosts") = false ->
  exists x, normalize raw w = (Raise x, w).
Proof.
  intros Hok. destruct Hok as [dm soa ttl zone net mail nss hs
    Httl Hzone Hnet Hsoa Hnss Hhs Hdot Hmail Htimers Hserial].
  unfold entries, field. rewrite Hnss, Hhs. intros Hn.
  unfold normalize. run. rewrite Hsoa. run. rewrite Hmail. run.
  rewrite lookup_insert_ne by done. rewrite Hnss. run.
  destruct (forallb named nss) eqn:En.
  - rewrite (for_each_update_named _ _ En). run.
    rewrite lookup_insert_ne by done. rewrite lookup_insert_ne by done.
    rewrite Hhs. run. simpl in Hn.
    destruct (for_each_update_unnamed _ w Hn) as [x ->]. by eexists.
  - destruct (for_each_update_unnamed _ w En) as [x ->]. by eexists.
Qed.
End Normalize.

(** ** [parse_yml] as a whole *)

Section ParseYml.
Implicit Types (dm em : gmap string pyval) (w : world).



(** A document that [parse_yml] returns passed the fatal checks, has a
    string [hostname] in every entry, and is the normalized document. *)
Lemma parse_yml_Return raw w d w1 :
  parse_yml (Loaded raw) w = (Return d, w1) ->
  fatal_ok raw
  /\ forallb named (entries raw "nameservers") = true
  /\ forallb named (entries raw "hosts") = true
  /\ d = normalized_doc raw.
Proof.
  unfold parse_yml. rewrite bind_run.
  destruct (fatal_checks_spec raw w) as [[Hok ->]|[_ Hab]].
  - rewrite bind_run.
    destruct (entry_checks raw w) as [[[]|c|x] w2]; try done.
    destruct (forallb named (entries raw "nameservers")
              && forallb named (entries raw "hosts")) eqn:E.
    + apply andb_prop in E as [En Eh].
      rewrite (normalize_named _ _ Hok En Eh). by intros [= <- <-].
    + destruct (normalize_unnamed _ w2 Hok E) as [x ->]. done.
  - destruct (fatal_checks raw w) as [[[]|c|x] w2]; try done.
    by destruct Hab as [Hs _].
Qed.

End ParseYml.

(** ** The emitters on a document [parse_yml] returned *)

Section EmitterRun.
Variable str_other : pyval -> string.
Implicit Types (dm em : gmap string pyval) (w : world) (h : handle).

Lemma bare_inv e :
  bare e = true ->
  exists em hn, e = PDict em /\ em !! "hostname" = Some (PStr hn)
                /\ find_dot hn = false.
Proof.
  unfold bare, field. destruct e as [| | | | | |em]; try done.
  destruct (em !! "hostname") as [[| | | |hn| |]|] eqn:E; try done.
  intros H%negb_true_iff. eauto.
Qed.

Lemma find_master_bare nss w :
  forallb bare nss = true ->
  find_master nss w
  = (Return match List.find has_master nss with
            | Some ns => PStr (text ns "hostname")
            | None => PNone
            end, w).
Proof.
  induction nss as [|ns nss IH]; [done|]. simpl forallb.
  intros [Hb Hl]%andb_prop.
  destruct (bare_inv _ Hb) as (em & hn & -> & Hhn & _).
  simpl. unfold has_master, text, field. rewrite bind_run. run.
  destruct (em !! "master") eqn:Em; run.
  - by rewrite Hhn.
  - by apply IH.
Qed.

Lemma print_to_run h s w : print_to h s w = (Return (), write h s w).
Proof. reflexivity. Qed.

Ltac run_io := repeat first [rewrite print_to_run | progress run].

Lemma build_header_ready h d dont_abbrev w :
  ready d -> entries d "nameservers" <> [] ->
  build_header str_other h d dont_abbrev w
  = (Return (), write_all (to_handle h (header str_other d dont_abbrev)) w).
Proof.
  intros Hr. destruct Hr as [dm soa ttl zone mail nss hs
    Httl Hzone Hsoa Hmail Htimers Hnss Hhs Hbn Hbh].
  unfold header, primary_ns, value, entries, text, field.
  rewrite Httl, Hzone, Hsoa, Hnss. cbv beta iota delta [default from_option id].
  rewrite Hmail.
  intros Hne.
  destruct (Htimers "refresh") as [v1 E1]; [by repeat constructor|].
  destruct (Htimers "retry") as [v2 E2]; [by repeat constructor|].
  destruct (Htimers "expire") as [v3 E3]; [by repeat constructor|].
  destruct (Htimers "ttl") as [v4 E4]; [by repeat constructor|].
  rewrite E1, E2, E3, E4. cbv beta iota delta [default from_option id].
  unfold build_header. run_io. rewrite Httl. run_io.
  rewrite Hnss. run_io. rewrite (find_master_bare _ _ Hbn).
  destruct nss as [|ns0 nss]; [done|].
  simpl in Hbn. apply andb_prop in Hbn as [Hb0 _].
  destruct (bare_inv _ Hb0) as (em0 & hn0 & -> & Hhn0 & _).
  destruct (List.find has_master (PDict em0 :: nss)) as [ns|] eqn:Ef.
  - destruct dont_abbrev;
      repeat (progress (run_io;
                        rewrite ?Hzone, ?Hsoa, ?Hmail, ?E1, ?E2, ?E3, ?E4));
      reflexivity.
  - run_io. rewrite Hhn0.
    destruct dont_abbrev;
      repeat (progress (run_io;
                        rewrite ?Hzone, ?Hsoa, ?Hmail, ?E1, ?E2, ?E3, ?E4));
      simpl; unfold text, field; rewrite Hhn0; reflexivity.
Qed.

(** Without name servers the header stops at [nameservers[0]]. *)
Lemma build_header_empty h d dont_abbrev w :
  ready d -> entries d "nameservers" = [] ->
  build_header str_other h d dont_abbrev w
  = (Raise IndexError, write h ("$TTL " +:+ text d "ttl" +:+ newline) w).
Proof.
  intros Hr. destruct Hr as [dm soa ttl zone mail nss hs
    Httl Hzone Hsoa Hmail Htimers Hnss Hhs Hbn Hbh].
  unfold entries, text, field. rewrite Httl, Hnss. intros ->.
  unfold build_header. run_io. rewrite Httl. run_io. rewrite Hnss. run_io.
  simpl find_master. run_io. reflexivity.
Qed.

Lemma entry_name_bare d zone e dont_abbrev w :
  field d "domainBase" = Some (PStr zone) -> bare e = true ->
  entry_name str_other d e dont_abbrev w
  = (Return (record_name d e dont_abbrev), w).
Proof.
  intros Hz Hb. destruct (bare_inv _ Hb) as (em & hn & -> & Hhn & _).
  unfold record_name, fqdn, text. rewrite Hz. simpl field. rewrite Hhn.
  destruct d; try discriminate Hz. simpl in Hz.
  unfold entry_name. destruct dont_abbrev; run; rewrite Hhn; run;
    rewrite ?Hz; run; reflexivity.
Qed.

Lemma ns_loop_bare h d zone dont_abbrev nss w :
  field d "domainBase" = Some (PStr zone) ->
  forallb bare nss = true ->
  for_each nss (fun ns =>
    hostname ← entry_name str_other d ns dont_abbrev;
    print_to h (ns_line hostname)) w
  = (Return (),
     write_all
       (to_handle h (map (fun ns => ns_line (record_name d ns dont_abbrev))
                         nss)) w).
Proof.
  intros Hz. revert w. induction nss as [|ns nss IH]; intros w; [done|].
  simpl forallb. intros [Hb Hl]%andb_prop.
  rewrite for_each_cons, bind_run, (entry_name_bare _ _ _ _ _ Hz Hb).
  rewrite print_to_run, (IH _ Hl). reflexivity.
Qed.

Lemma to_handle_app h l1 l2 :
  to_handle h (l1 ++ l2) = to_handle h l1 ++ to_handle h l2.
Proof. apply map_app. Qed.

Lemma build_ns_ready h d dont_abbrev w :
  ready d ->
  build_ns str_other h d dont_abbrev w
  = (Return (),
     write_all (to_handle h (ns_records d dont_abbrev)) w).
Proof.
  intros Hr. destruct Hr as [dm soa ttl zone mail nss hs
    Httl Hzone Hsoa Hmail Htimers Hnss Hhs Hbn Hbh].
  unfold ns_records, entries. simpl field. rewrite Hnss.
  unfold build_ns. run. rewrite Hnss. run.
  rewrite (ns_loop_bare h (PDict dm) zone _ _ _ Hzone Hbn).
  rewrite print_to_run, to_handle_app, write_all_app. reflexivity.
Qed.

Lemma forward_host_bare h d zone dont_abbrev host w :
  field d "domainBase" = Some (PStr zone) ->
  bare host = true -> has_ip false host = true ->
  forward_host str_other h d dont_abbrev host w
  = (Return (),
     write_all (forward_records str_other h d dont_abbrev host) w).
Proof.
  intros Hz Hb Hip. unfold forward_host.
  rewrite bind_run, (entry_name_bare _ _ _ _ _ Hz Hb).
  destruct (bare_inv _ Hb) as (em & hn & -> & Hhn & _).
  unfold has_ip, forward_records, value in *. simpl field in *.
  destruct (em !! "ip") as [ip|] eqn:Eip; [|done].
  run_io. rewrite Eip. run_io.
  destruct (em !! "description") as [desc|] eqn:Ed; run_io; reflexivity.
Qed.

Lemma forward_loop_bare h d zone dont_abbrev hs w :
  field d "domainBase" = Some (PStr zone) ->
  forallb bare hs = true -> forallb (has_ip false) hs = true ->
  for_each hs (forward_host str_other h d dont_abbrev) w
  = (Return (),
     write_all
       (concat (map (forward_records str_other h d dont_abbrev) hs)) w).
Proof.
  intros Hz. revert w. induction hs as [|host hs IH]; intros w; [done|].
  simpl forallb. intros [Hb Hl]%andb_prop [Hi Hil]%andb_prop.
  rewrite for_each_cons, (forward_host_bare _ _ _ _ _ _ Hz Hb Hi).
  rewrite (IH _ Hl Hil). simpl. by rewrite write_all_app.
Qed.

Lemma reverse_host_bare h d zone dont_abbrev host w :
  field d "domainBase" = Some (PStr zone) ->
  bare host = true -> has_ip (negb dont_abbrev) host = true ->
  reverse_host str_other h d dont_abbrev host w
  = (Return (),
     write_all (reverse_records str_other h d dont_abbrev host) w).
Proof.
  intros Hz Hb Hip. unfold reverse_host.
  destruct (bare_inv _ Hb) as (em & hn & -> & Hhn & _).
  unfold has_ip, reverse_records, ptr_owner, fqdn, value, text in *.
  rewrite Hz. simpl field in *. rewrite Hhn.
  destruct d as [| | | | | |dm]; try discriminate Hz. simpl in Hz.
  destruct (em !! "ip") as [ip|] eqn:Eip; [|done].
  destruct dont_abbrev.
  - run_io. rewrite Eip. run_io. rewrite Hhn. run_io. rewrite Hz. run_io.
    destruct (em !! "description") as [desc|] eqn:Ed; run_io; reflexivity.
  - destruct ip; try discriminate Hip.
    run_io. rewrite Eip. run_io. rewrite Hhn. run_io. rewrite Hz. run_io.
    destruct (em !! "description") as [desc|] eqn:Ed; run_io; reflexivity.
Qed.

Lemma reverse_loop_bare h d zone dont_abbrev hs w :
  field d "domainBase" = Some (PStr zone) ->
  forallb bare hs = true ->
  forallb (has_ip (negb dont_abbrev)) hs = true ->
  for_each hs (reverse_host str_other h d dont_abbrev) w
  = (Return (),
     write_all
       (concat (map (reverse_records str_other h d dont_abbrev) hs)) w).
Proof.
  intros Hz. revert w. induction hs as [|host hs IH]; intros w; [done|].
  simpl forallb. intros [Hb Hl]%andb_prop [Hi Hil]%andb_prop.
  rewrite for_each_cons, (reverse_host_bare _ _ _ _ _ _ Hz Hb Hi).
  rewrite (IH _ Hl Hil). simpl. by rewrite write_all_app.
Qed.

Lemma build_forward_db_ready h d dont_abbrev w :
  ready d -> entries d "nameservers" <> [] ->
  forallb (has_ip false) (entries d "hosts") = true ->
  build_forward_db str_other h d dont_abbrev w
  = (Return (),
     write_all
       (to_handle h (header str_other d dont_abbrev)
        ++ to_handle h (ns_records d dont_abbrev)
        ++ concat (map (forward_records str_other h d dont_abbrev)
                       (entries d "hosts"))) w).
Proof.
  intros Hr Hne Hip. unfold build_forward_db.
  rewrite bind_run, (build_header_ready _ _ _ _ Hr Hne).
  rewrite bind_run, (build_ns_ready _ _ _ _ Hr).
  rewrite !write_all_app.
  destruct Hr as [dm soa ttl zone mail nss hs
    Httl Hzone Hsoa Hmail Htimers Hnss Hhs Hbn Hbh].
  unfold entries in Hip |- *. simpl field in *. rewrite Hhs in *.
  run. rewrite Hhs. run.
  by apply (forward_loop_bare h (PDict dm) zone).
Qed.

Lemma build_reverse_db_ready h d dont_abbrev w :
  ready d -> entries d "nameservers" <> [] ->
  forallb (has_ip (negb dont_abbrev)) (entries d "hosts") = true ->
  build_reverse_db str_other h d dont_abbrev w
  = (Return (),
     write_all
       (to_handle h (header str_other d dont_abbrev)
        ++ to_handle h (ns_records d dont_abbrev)
        ++ concat (map (reverse_records str_other h d dont_abbrev)
                       (entries d "hosts"))) w).
Proof.
  intros Hr Hne Hip. unfold build_reverse_db.
  rewrite bind_run, (build_header_ready _ _ _ _ Hr Hne).
  rewrite bind_run, (build_ns_ready _ _ _ _ Hr).
  rewrite !write_all_app.
  destruct Hr as [dm soa ttl zone mail nss hs
    Httl Hzone Hsoa Hmail Htimers Hnss Hhs Hbn Hbh].
  unfold entries in Hip |- *. simpl field in *. rewrite Hhs in *.
  run. rewrite Hhs. run.
  by apply (reverse_loop_bare h (PDict dm) zone).
Qed.
End EmitterRun.

(** ** The returned document is ready for emission *)

Section Ready.
Implicit Types (dm em : gmap string pyval) (w : world).

Lemma normalized_entry_bare e :
  named e = true -> bare (normalized_entry e) = true.
Proof.
  unfold named, bare, normalized_entry, field.
  destruct e as [| | | | | |em]; try done.
  destruct (em !! "hostname") as [[| | | |hn| |]|] eqn:E; try done.
  intros _. rewrite lookup_insert_eq. apply negb_true_iff.
  apply py_split_first_no_sep.
Qed.

Lemma normalized_entries_bare l :
  forallb named l = true -> forallb bare (normalized_entry <$> l) = true.
Proof.
  induction l as [|e l IH]; [done|]. rewrite fmap_cons. simpl forallb.
  intros [He Hl]%andb_prop. by rewrite normalized_entry_bare, IH.
Qed.

Lemma normalized_doc_entries raw key :
  fatal_ok raw -> key = "nameservers" \/ key = "hosts" ->
  entries (normalized_doc raw) key = normalized_entry <$> entries raw key.
Proof.
  intros Hok. destruct Hok as [dm soa ttl zone net mail nss hs
    Httl Hzone Hnet Hsoa Hnss Hhs Hdot Hmail Htimers Hserial].
  unfold normalized_doc, entries, field. rewrite Hnss, Hhs.
  intros [-> | ->].
  - rewrite lookup_insert_ne by done. by rewrite lookup_insert_eq, Hnss.
  - by rewrite lookup_insert_eq, Hhs.
Qed.

Lemma normalized_doc_ready raw :
  fatal_ok raw ->
  forallb named (entries raw "nameservers") = true ->
  forallb named (entries raw "hosts") = true ->
  ready (normalized_doc raw).
Proof.
  intros Hok Hn Hh.
  pose proof (normalized_doc_entries raw "nameservers" Hok) as En.
  pose proof (normalized_doc_entries raw "hosts" Hok) as Eh.
  destruct Hok as [dm soa ttl zone net mail nss hs
    Httl Hzone Hnet Hsoa Hnss Hhs Hdot Hmail Htimers Hserial].
  unfold normalized_doc, entries, soa_of, text, field in *.
  rewrite Hsoa, Hmail, Hnss, Hhs in *.
  eapply (Ready _ (<["mail" := PStr (normalize_mail mail)]> soa)
                ttl zone (normalize_mail mail)
                (normalized_entry <$> nss) (normalized_entry <$> hs)).
  - by rewrite !lookup_insert_ne.
  - by rewrite !lookup_insert_ne.
  - rewrite !lookup_insert_ne by done. by rewrite lookup_insert_eq.
  - by rewrite lookup_insert_eq.
  - intros k Hk. destruct (Htimers k Hk) as (v & Hv & _).
    exists v. rewrite lookup_insert_ne; [done|].
    intros <-. repeat (apply elem_of_cons in Hk as [Hk|Hk]; [done|]).
    by apply elem_of_nil in Hk.
  - rewrite lookup_insert_ne by done. by rewrite lookup_insert_eq.
  - by rewrite lookup_insert_eq.
  - by apply normalized_entries_bare.
  - by apply normalized_entries_bare.
Qed.

Lemma parse_yml_ready raw w d w1 :
  parse_yml (Loaded raw) w = (Return d, w1) -> ready d.
Proof.
  intros (Hok & Hn & Hh & ->)%parse_yml_Return.
  by apply normalized_doc_ready.
Qed.
End Ready.

(** ** What [normalize] returns, on any document *)

Section NormalizeInv.
Implicit Types (dm em : gmap string pyval) (w : world).


End NormalizeInv.

(** ** Nothing of [parse_yml] reaches [sys.stderr] *)

Section Stderr.

Lemma keeps_ret {A} (a : A) : keeps_stderr (ret a).
Proof. done. Qed.

Lemma keeps_raise {A} e : keeps_stderr (@raise A e).
Proof. done. Qed.

Lemma keeps_exit {A} c : keeps_stderr (@sys_exit A c).
Proof. done. Qed.

Lemma keeps_print s : keeps_stderr (print s).
Proof. done. Qed.

Lemma keeps_bind {A B} (m : M A) (k : A -> M B) :
  keeps_stderr m -> (forall a, keeps_stderr (k a)) -> keeps_stderr (m ≫= k).
Proof.
  intros Hm Hk w. rewrite bind_run. specialize (Hm w).
  destruct (m w) as [[a|c|x] w']; simpl in *; try done.
  by rewrite Hk.
Qed.

Lemma keeps_when c body : keeps_stderr body -> keeps_stderr (when c body).
Proof. by destruct c. Qed.

Lemma keeps_for_each {A} (l : list A) body :
  (forall x, keeps_stderr (body x)) -> keeps_stderr (for_each l body).
Proof.
  intros Hb. induction l as [|x l IH]; [done|].
  simpl. apply keeps_bind; [apply Hb|done].
Qed.

Lemma keeps_for_enumerate {A} i (l : list A) body :
  (forall i x, keeps_stderr (body i x)) ->
  keeps_stderr (for_enumerate i l body).
Proof.
  intros Hb. revert i. induction l as [|x l IH]; intros i; [done|].
  simpl. apply keeps_bind; [apply Hb|done].
Qed.

Lemma keeps_for_each_update l body :
  (forall x, keeps_stderr (body x)) -> keeps_stderr (for_each_update l body).
Proof.
  intros Hb. induction l as [|x l IH]; [done|].
  simpl. apply keeps_bind; [apply Hb|intros].
  apply keeps_bind; [done|intros; apply keeps_ret].
Qed.

Lemma keeps_contains k v : keeps_stderr (py_contains k v).
Proof. by destruct v. Qed.

Lemma keeps_getitem v k : keeps_stderr (py_getitem v k).
Proof. destruct v; try done. simpl. by destruct (_ !! _). Qed.

Lemma keeps_setitem v k x : keeps_stderr (py_setitem v k x).
Proof. by destruct v. Qed.

Lemma keeps_iter v : keeps_stderr (py_iter v).
Proof. by destruct v. Qed.

Lemma keeps_find_dot v : keeps_stderr (py_find_dot v).
Proof. by destruct v. Qed.

Lemma keeps_split_dot v : keeps_stderr (py_split_dot v).
Proof. by destruct v. Qed.

Lemma keeps_replace_at v : keeps_stderr (py_replace_at v).
Proof. by destruct v. Qed.

Lemma keeps_endswith_dot v : keeps_stderr (py_endswith_dot v).
Proof. by destruct v. Qed.

Ltac keeps :=
  repeat first
    [ apply keeps_ret | apply keeps_raise | apply keeps_exit
    | apply keeps_print | apply keeps_contains | apply keeps_getitem
    | apply keeps_setitem | apply keeps_iter | apply keeps_find_dot
    | apply keeps_split_dot | apply keeps_replace_at
    | apply keeps_endswith_dot | apply keeps_when
    | apply keeps_bind; [|intros]
    | apply keeps_for_each; intros
    | apply keeps_for_enumerate; intros
    | apply keeps_for_each_update; intros
    | match goal with |- keeps_stderr (if ?b then _ else _) => destruct b end ].

Lemma keeps_fatal_checks yml_obj : keeps_stderr (fatal_checks yml_obj).
Proof.
  unfold fatal_checks, check_top_level, check_fqdn, check_soa_required,
    check_soa_optional. keeps.
Qed.

Lemma keeps_entry_checks yml_obj : keeps_stderr (entry_checks yml_obj).
Proof. unfold entry_checks, check_entry. keeps. Qed.

Lemma keeps_normalize definition : keeps_stderr (normalize definition).
Proof. unfold normalize, normalize_entry. keeps. Qed.

Lemma keeps_parse_yml yml_obj : keeps_stderr (parse_yml (Loaded yml_obj)).
Proof.
  unfold parse_yml.
  apply keeps_bind; [apply keeps_fatal_checks|intros].
  apply keeps_bind; [apply keeps_entry_checks|intros].
  apply keeps_normalize.
Qed.
End Stderr.

(** ** Facts on entries and on the primary name server *)

Section ReadyFacts.
Implicit Types (dm em : gmap string pyval) (w : world).

Lemma forallb_elem {A} (f : A -> bool) (l : list A) x :
  forallb f l = true -> x ∈ l -> f x = true.
Proof.
  induction l as [|y l IH]; simpl; [by intros _ ?%elem_of_nil|].
  intros [Hy Hl]%andb_prop [->|Hx]%elem_of_cons; auto.
Qed.

Lemma ready_zone d :
  ready d -> field d "domainBase" = Some (PStr (text d "domainBase")).
Proof.
  intros Hr. destruct Hr as [dm soa ttl zone mail nss hs
    Httl Hzone Hsoa Hmail Htimers Hnss Hhs Hbn Hbh].
  unfold text. simpl. by rewrite Hzone.
Qed.

Lemma ready_bare d key e :
  ready d -> key = "nameservers" \/ key = "hosts" ->
  e ∈ entries d key -> bare e = true.
Proof.
  intros Hr. destruct Hr as [dm soa ttl zone mail nss hs
    Httl Hzone Hsoa Hmail Htimers Hnss Hhs Hbn Hbh].
  unfold entries. simpl. intros [-> | ->]; rewrite ?Hnss, ?Hhs;
    by apply forallb_elem.
Qed.

Lemma primary_ns_first before ns after :
  Forall (fun e => field e "master" = None) before ->
  is_Some (field ns "master") ->
  primary_ns (before ++ ns :: after) = Some ns.
Proof.
  intros Hb [v Hv]. unfold primary_ns.
  assert (List.find has_master (before ++ ns :: after) = Some ns) as ->;
    [|done].
  induction Hb as [|e before He Hb IH]; simpl.
  - unfold has_master. by rewrite Hv.
  - unfold has_master at 1. by rewrite He.
Qed.

Lemma primary_ns_none nss :
  Forall (fun e => field e "master" = None) nss ->
  primary_ns nss = head nss.
Proof.
  intros Hb. unfold primary_ns.
  assert (List.find has_master nss = None) as ->; [|done].
  induction Hb as [|e nss He Hb IH]; simpl; [done|].
  unfold has_master at 1. by rewrite He.
Qed.
End ReadyFacts.

(** ** Entries before and after normalization *)

Section NormalizedEntries.
Implicit Types (dm em : gmap string pyval).

Lemma normalized_doc_entries_any raw key :
  key = "nameservers" \/ key = "hosts" ->
  entries (normalized_doc raw) key = normalized_entry <$> entries raw key.
Proof.
  intros Hkey. destruct raw as [| | | | | |dm]; try done.
  unfold normalized_doc. unfold entries at 1. unfold field.
  destruct Hkey as [-> | ->].
  - rewrite lookup_insert_ne by done. by rewrite lookup_insert_eq.
  - by rewrite lookup_insert_eq.
Qed.

End NormalizedEntries.

(** ** Fatal violations *)

Section Violations.
Implicit Types (dm em : gmap string pyval) (w : world).

Lemma fatal_violation_not_ok yml_obj :
  fatal_violation yml_obj -> ~ fatal_ok yml_obj.
Proof.
  intros Hv Hok. destruct Hok as [dm soa ttl zone net mail nss hs
    Httl Hzone Hnet Hsoa Hnss Hhs Hdot Hmail Htimers Hserial].
  destruct Hv as [key t Hk Hl|z Hz Hd|key ts Hk Hl].
  - unfold TOP_LEVEL_REQUIRED in Hk. unfold lacks, field in Hl.
    repeat (apply elem_of_cons in Hk as [Hk|Hk];
            [injection Hk as -> ->;
             rewrite ?Httl, ?Hzone, ?Hnet, ?Hsoa, ?Hnss, ?Hhs in Hl;
             discriminate Hl|]).
    by apply elem_of_nil in Hk.
  - simpl in Hz. congruence.
  - unfold SOA_REQUIRED in Hk. unfold lacks, value, field in Hl.
    rewrite Hsoa in Hl. simpl in Hl.
    apply elem_of_cons in Hk as [Hk|Hk].
    { injection Hk as -> ->. rewrite Hmail in Hl. discriminate Hl. }
    repeat (apply elem_of_cons in Hk as [Hk|Hk];
            [injection Hk as -> ->;
             match type of Hl with
             | context [soa !! ?k] =>
                 destruct (Htimers k) as (v & Hv & Hi);
                 [by repeat constructor|];
                 rewrite Hv in Hl; unfold int_or_str in Hi; congruence
             end|]).
    by apply elem_of_nil in Hk.
Qed.

Lemma main_aborted str_other yml_obj output dont_abbrev forward reverse w :
  aborted (fatal_checks yml_obj w) w ->
  main str_other (Loaded yml_obj) output dont_abbrev forward reverse w
  = fatal_checks yml_obj w.
Proof.
  intros [Hs _]. unfold main, parse_yml. rewrite !bind_run.
  by destruct (fatal_checks yml_obj w) as [[[]|c|x] w1].
Qed.
End Violations.

Section FatalReturn.
Lemma fatal_checks_Return raw w w1 :
  fatal_checks raw w = (Return (), w1) -> fatal_ok raw /\ w1 = w.
Proof.
  intros H. destruct (fatal_checks_spec raw w) as [[Hok E]|[_ [Hs _]]].
  - rewrite E in H. by injection H as <-.
  - rewrite H in Hs. done.
Qed.
End FatalReturn.

(** * The claims *)

(** C1, as amended.  For a document returned by [parse_yml] with at least
    one name server, forward emission prints, after the header, exactly
    one NS line per name server in list order, an empty line, and then,
    host after host in list order, exactly one A line, followed for a
    described host by the one TXT line of that host and by nothing for a
    host without a description; this needs every host to have an [ip].
    Reverse emission does the same with PTR lines; abbreviated, it needs
    every [ip] to be a string.  Nothing else is printed.  The TXT line of
    the forward zone is the one the source prints, on [sys.stdout]. *)
Theorem emission_follows_input str_other raw w0 d w1 h dont_abbrev w :
  parse_yml (Loaded raw) w0 = (Return d, w1) ->
  entries d "nameservers" <> [] ->
  (forallb (has_ip false) (entries d "hosts") = true ->
   build_forward_db str_other h d dont_abbrev w
   = (Return (),
      write_all
        (to_handle h (header str_other d dont_abbrev)
         ++ to_handle h
              (map (fun ns => ns_line (record_name d ns dont_abbrev))
                   (entries d "nameservers"))
         ++ [(h, "")]
         ++ concat
              (map (fun host =>
                      (h, a_line str_other (record_name d host dont_abbrev)
                                 (value host "ip"))
                      :: match field host "description" with
                         | Some description =>
                             [(Hstdout,
                               forward_txt_line str_other
                                 (record_name d host dont_abbrev)
                                 description)]
                         | None => []
                         end)
                   (entries d "hosts"))) w))
  /\ (forallb (has_ip (negb dont_abbrev)) (entries d "hosts") = true ->
      build_reverse_db str_other h d dont_abbrev w
      = (Return (),
         write_all
           (to_handle h (header str_other d dont_abbrev)
            ++ to_handle h
                 (map (fun ns => ns_line (record_name d ns dont_abbrev))
                      (entries d "nameservers"))
            ++ [(h, "")]
            ++ concat
                 (map (fun host =>
                         (h, ptr_line (ptr_owner str_other dont_abbrev host)
                                      (fqdn d host))
                         :: match field host "description" with
                            | Some description =>
                                [(h, reverse_txt_line str_other
                                       (ptr_owner str_other dont_abbrev host)
                                       description)]
                            | None => []
                            end)
                      (entries d "hosts"))) w)).
Proof.
  intros Hr%parse_yml_ready Hne. split; intros Hip.
  - rewrite (build_forward_db_ready _ _ _ _ _ Hr Hne Hip).
    unfold ns_records. by rewrite to_handle_app, <- !app_assoc.
  - rewrite (build_reverse_db_ready _ _ _ _ _ Hr Hne Hip).
    unfold ns_records. by rewrite to_handle_app, <- !app_assoc.
Qed.

(** C1: two name servers and two hosts, the first host described; with
    the output file as sink the lines come in list order, one A or PTR
    line per host. *)
Lemma emission_follows_input_witness :
  build_forward_db no_repr Hfile
    (normalized_doc (sample [ns2; ns1] [www_described; www_int_ip])) false
    world0
  = (Return (),
     World ["www   IN TXT " +:+ dquote +:+ "web server" +:+ dquote] []
       (Some (header no_repr
                (normalized_doc (sample [ns2; ns1] [www_described; www_int_ip]))
                false
              ++ ["    IN NS ns2"; "    IN NS ns1"; "";
                  "www   IN A   10.0.0.5"; "www   IN A   5"])))
  /\ build_reverse_db no_repr Hfile
       (normalized_doc (sample [ns2; ns1] [www_described; www_int_ip])) true
       world0
     = (Return (),
        World [] []
          (Some (header no_repr
                   (normalized_doc
                      (sample [ns2; ns1] [www_described; www_int_ip]))
                   true
                 ++ ["    IN NS ns2.example.com."; "    IN NS ns1.example.com.";
                     "";
                     "10.0.0.5    IN PTR www.example.com.";
                     "10.0.0.5    IN TXT " +:+ dquote +:+ "web server"
                     +:+ dquote;
                     "5    IN PTR www.example.com."]))).
Proof.
  assert (parse_yml (Loaded (sample [ns2; ns1] [www_described; www_int_ip]))
            world0
          = (Return
               (normalized_doc (sample [ns2; ns1] [www_described; www_int_ip])),
             world0)) as Hp
    by (vm_compute; reflexivity).
  assert (entries
            (normalized_doc (sample [ns2; ns1] [www_described; www_int_ip]))
            "nameservers" <> []) as Hne
    by (vm_compute; discriminate).
  split.
  - destruct (emission_follows_input no_repr _ _ _ _ Hfile false world0 Hp Hne)
      as [-> _]; vm_compute; reflexivity.
  - destruct (emission_follows_input no_repr _ _ _ _ Hfile true world0 Hp Hne)
      as [_ ->]; vm_compute; reflexivity.
Defined.

(** C1 as stated fails on [sample_no_ns]: the document is validated and
    normalized and has one host, yet both emitters stop with [IndexError]
    after the TTL line, before any NS, A or PTR line. *)
Lemma emission_follows_input_counterexample :
  parse_yml (Loaded sample_no_ns) world0
  = (Return (normalized_doc sample_no_ns), world0)
  /\ length (entries (normalized_doc sample_no_ns) "hosts") = 1%nat
  /\ build_forward_db no_repr Hfile (normalized_doc sample_no_ns) false world0
     = (Raise IndexError, World [] [] (Some ["$TTL 3600" +:+ newline]))
  /\ build_reverse_db no_repr Hfile (normalized_doc sample_no_ns) false world0
     = (Raise IndexError, World [] [] (Some ["$TTL 3600" +:+ newline])).
Proof. vm_compute. repeat split; reflexivity. Qed.

(** C2, what the code does.  With the output file as sink, the forward
    emitter writes the A line of a described host to the file and its TXT
    line to [sys.stdout]: the TXT line is not written to the given sink. *)
Theorem forward_txt_line_misses_sink str_other raw w0 d w1 dont_abbrev host
    description w :
  parse_yml (Loaded raw) w0 = (Return d, w1) ->
  host ∈ entries d "hosts" ->
  has_ip false host = true ->
  field host "description" = Some description ->
  forward_host str_other Hfile d dont_abbrev host w
  = (Return (),
     World
       (stdout w
        ++ [forward_txt_line str_other (record_name d host dont_abbrev)
                             description])
       (stderr w)
       (Some (default [] (ofile w)
              ++ [a_line str_other (record_name d host dont_abbrev)
                         (value host "ip")]))).
Proof.
  intros Hr%parse_yml_ready Hin Hip Hd.
  rewrite (forward_host_bare _ _ _ _ _ _ _ (ready_zone _ Hr)
             (ready_bare _ "hosts" _ Hr (or_intror eq_refl) Hin) Hip).
  unfold forward_records. by rewrite Hd.
Qed.

(** C2: a run with [-o] on a described host; the TXT line is alone on
    [sys.stdout] and absent from the file. *)
Lemma forward_txt_line_misses_sink_witness :
  main no_repr (Loaded (sample [ns1] [www_described])) (Some (Writable "zone.db"))
       false true false world0
  = (Return (),
     World ["www   IN TXT " +:+ dquote +:+ "web server" +:+ dquote] []
       (Some (header no_repr (normalized_doc (sample [ns1] [www_described]))
                     false
              ++ ["    IN NS ns1"; ""; "www   IN A   10.0.0.5"])))
  /\ forward_host no_repr Hfile (normalized_doc (sample [ns1] [www_described]))
       false www_described world0
     = (Return (),
        World ["www   IN TXT " +:+ dquote +:+ "web server" +:+ dquote] []
              (Some ["www   IN A   10.0.0.5"])).
Proof.
  split; [vm_compute; reflexivity|].
  rewrite (forward_txt_line_misses_sink no_repr
             (sample [ns1] [www_described]) world0
             (normalized_doc (sample [ns1] [www_described])) world0 false
             www_described (PStr "web server") world0).
  - vm_compute. reflexivity.
  - vm_compute. reflexivity.
  - vm_compute. by left.
  - vm_compute. reflexivity.
  - vm_compute. reflexivity.
Defined.



(** C4.  For a document returned by [parse_yml] with at least one name
    server, the second line of the header is
    [<origin> IN SOA <primary>.<domainBase> <mail> (] with [<origin>] the
    zone name under [dont_abbrev] and [@] otherwise, and [<primary>] the
    host name of the first name server whose [master] key is present,
    whatever it holds, or of the name server at index 0 when none has the
    key. *)
Theorem soa_names_primary str_other raw w0 d w1 h dont_abbrev w :
  parse_yml (Loaded raw) w0 = (Return d, w1) ->
  entries d "nameservers" <> [] ->
  exists primary ttl_line timers,
    build_header str_other h d dont_abbrev w
    = (Return (),
       write_all
         (to_handle h
            [ttl_line;
             (if dont_abbrev then text d "domainBase" else "@")
             +:+ " IN SOA " +:+ text primary "hostname" +:+ "."
             +:+ text d "domainBase" +:+ " "
             +:+ text (value d "soa") "mail" +:+ " (";
             timers;
             ")" +:+ newline]) w)
    /\ (forall before ns after,
          entries d "nameservers" = before ++ ns :: after ->
          Forall (fun e => field e "master" = None) before ->
          is_Some (field ns "master") ->
          primary = ns)
    /\ (Forall (fun e => field e "master" = None) (entries d "nameservers") ->
        head (entries d "nameservers") = Some primary).
Proof.
  intros Hr%parse_yml_ready Hne.
  destruct (primary_ns (entries d "nameservers")) as [primary|] eqn:Ep.
  - exists primary. do 2 eexists. split; [|split].
    + rewrite (build_header_ready _ _ _ _ _ Hr Hne). unfold header.
      rewrite Ep. reflexivity.
    + intros before ns after E Hb Hm. rewrite E in Ep.
      rewrite (primary_ns_first _ _ _ Hb Hm) in Ep. congruence.
    + intros Hn. by rewrite <- (primary_ns_none _ Hn).
  - unfold primary_ns in Ep.
    destruct (List.find _ _); [done|].
    by destruct (entries d "nameservers").
Qed.

(** C4: with name servers [ns2] and then [ns1], the latter with [master],
    the SOA line names [ns1]. *)
Lemma soa_names_primary_witness :
  exists ttl_line timers,
    build_header no_repr Hstdout (normalized_doc sample_zone) false world0
    = (Return (),
       World [ttl_line; "@ IN SOA ns1.example.com. admin.example.com. (";
              timers; ")" +:+ newline] [] None).
Proof.
  assert (parse_yml (Loaded sample_zone) world0
          = (Return (normalized_doc sample_zone), world0)) as Hp
    by (vm_compute; reflexivity).
  assert (entries (normalized_doc sample_zone) "nameservers" <> []) as Hne
    by (vm_compute; discriminate).
  destruct (soa_names_primary no_repr _ _ _ _ Hstdout false world0 Hp Hne)
    as (primary & ttl_line & timers & -> & Hfirst & _).
  rewrite (Hfirst [normalized_entry ns2] (normalized_entry ns1) []).
  - exists ttl_line, timers. vm_compute. reflexivity.
  - vm_compute. reflexivity.
  - repeat constructor.
  - vm_compute. eauto.
Defined.





(** C7.  On a document with a fatal violation [main] does nothing beyond
    the fatal checks, which stop at the first failure: the exit status is
    not zero, at most one diagnostic was printed, and the output file was
    not even opened. *)
Theorem fatal_violation_exits str_other yml_obj output dont_abbrev forward
    reverse w :
  fatal_violation yml_obj ->
  main str_other (Loaded yml_obj) output dont_abbrev forward reverse w
  = fatal_checks yml_obj w
  /\ aborted
       (main str_other (Loaded yml_obj) output dont_abbrev forward reverse w)
       w.
Proof.
  intros Hv%fatal_violation_not_ok.
  destruct (fatal_checks_spec yml_obj w) as [[Hok _]|[_ Hab]]; [done|].
  by rewrite (main_aborted _ _ _ _ _ _ _ Hab).
Qed.

(** C7: a document without [domainBase]. *)
Lemma fatal_violation_exits_witness :
  main no_repr (Loaded sample_no_zone) (Some (Writable "zone.db")) false true false world0
  = (Exit 1, World [msg_required "domainBase"] [] None).
Proof.
  assert (fatal_violation sample_no_zone) as Hv.
  { apply (Top_level_key _ "domainBase" Tstr).
    - unfold TOP_LEVEL_REQUIRED. by repeat constructor.
    - vm_compute. exact I. }
  destruct (fatal_violation_exits no_repr sample_no_zone (Some (Writable "zone.db"))
              false true false world0 Hv) as [-> _].
  vm_compute. reflexivity.
Defined.

(** C8, what the code does.  [parse_yml] on a loaded document never
    writes to [sys.stderr]: the diagnostic of a fatal check and that of an
    entry check go to [sys.stdout], unlike the message for a file that is
    not found. *)
Theorem schema_diagnostics_on_stdout :
  (forall yml_obj w, stderr (parse_yml (Loaded yml_obj) w).2 = stderr w)
  /\ parse_yml (Loaded (dict [])) world0
     = (Exit 1, World [msg_required "ttl"] [] None)
  /\ parse_yml (Loaded (sample [dict []] [])) world0
     = (Raise KeyError,
        World [msg_entry_required "nameservers" 0 "hostname"] [] None)
  /\ parse_yml NotFound world0
     = (Exit 1,
        World [] ["[ERROR] File Not Found: Please check file path."] None).
Proof.
  split; [intros; apply keeps_parse_yml|].
  vm_compute. repeat split; reflexivity.
Qed.




(** C10.  A document with an empty [nameservers] list passes the
    top-level check of that key and the entry checks are vacuous on it,
    but on the document [parse_yml] returns the header stops with
    [IndexError] after the TTL line, and so do both emitters. *)
Theorem empty_nameservers_stop_emission str_other raw w0 d w1 h dont_abbrev
    w :
  parse_yml (Loaded raw) w0 = (Return d, w1) ->
  entries raw "nameservers" = [] ->
  field raw "nameservers" = Some (PList [])
  /\ check_top_level raw ("nameservers", Tlist) w = (Return (), w)
  /\ for_enumerate 0 (entries raw "nameservers")
                   (check_entry "nameservers" NS_REQUIRED) w
     = (Return (), w)
  /\ entries d "nameservers" = []
  /\ build_header str_other h d dont_abbrev w
     = (Raise IndexError,
        write h ("$TTL " +:+ text d "ttl" +:+ newline) w)
  /\ build_forward_db str_other h d dont_abbrev w
     = (Raise IndexError,
        write h ("$TTL " +:+ text d "ttl" +:+ newline) w)
  /\ build_reverse_db str_other h d dont_abbrev w
     = (Raise IndexError,
        write h ("$TTL " +:+ text d "ttl" +:+ newline) w).
Proof.
  intros Hp Hempty. pose proof (parse_yml_ready _ _ _ _ Hp) as Hr.
  apply parse_yml_Return in Hp as (Hok & _ & _ & ->).
  assert (entries (normalized_doc raw) "nameservers" = []) as Hd.
  { rewrite normalized_doc_entries_any by by left. by rewrite Hempty. }
  assert (field raw "nameservers" = Some (PList [])) as Hf.
  { destruct Hok as [dm soa ttl zone net mail nss hs
      Httl Hzone Hnet Hsoa Hnss Hhs Hdot Hmail Htimers Hserial].
    unfold entries, field in *. rewrite Hnss in *. by subst. }
  pose proof (build_header_empty str_other h _ dont_abbrev w Hr Hd) as Hh.
  repeat split; try done.
  - destruct raw as [| | | | | |dm]; try done. simpl in Hf.
    by rewrite check_top_level_dict, Hf.
  - by rewrite Hempty.
  - unfold build_forward_db. by rewrite bind_run, Hh.
  - unfold build_reverse_db. by rewrite bind_run, Hh.
Qed.

(** C10: [sample_no_ns] is returned by [parse_yml], and forward emission
    stops with [IndexError]. *)
Lemma empty_nameservers_stop_emission_witness :
  parse_yml (Loaded sample_no_ns) world0
  = (Return (normalized_doc sample_no_ns), world0)
  /\ build_forward_db no_repr Hfile (normalized_doc sample_no_ns) false world0
     = (Raise IndexError, World [] [] (Some ["$TTL 3600" +:+ newline])).
Proof.
  assert (parse_yml (Loaded sample_no_ns) world0
          = (Return (normalized_doc sample_no_ns), world0)) as Hp
    by (vm_compute; reflexivity).
  split; [exact Hp|].
  destruct (empty_nameservers_stop_emission no_repr _ _ _ _ Hfile false
              world0 Hp) as (_ & _ & _ & _ & _ & -> & _).
  - vm_compute. reflexivity.
  - vm_compute. reflexivity.
Defined.

(** ** What a computation leaves alone *)
Section Frames.

Context {X : Type} (f : world -> X).

Lemma keeps_pure {A} (m : M A) :
  (forall w, (m w).2 = w) -> keeps f m.
Proof. intros H w. by rewrite H. Qed.

Lemma keeps_mbind {A B} (m : M A) (k : A -> M B) :
  keeps f m -> (forall a, keeps f (k a)) -> keeps f (m ≫= k).
Proof.
  intros Hm Hk w. rewrite bind_run. specialize (Hm w).
  destruct (m w) as [[a|c|x] w']; simpl in *; try done.
  by rewrite Hk.
Qed.

Lemma keeps_print_to h s :
  (forall w, f (write h s w) = f w) -> keeps f (print_to h s).
Proof. intros H w. apply H. Qed.

Lemma keeps_when_body c body : keeps f body -> keeps f (when c body).
Proof. by destruct c. Qed.

Lemma keeps_loop {A} (l : list A) body :
  (forall x, keeps f (body x)) -> keeps f (for_each l body).
Proof.
  intros Hb. induction l as [|x l IH]; [done|].
  simpl. apply keeps_mbind; [apply Hb|done].
Qed.

Lemma keeps_enumerate {A} i (l : list A) body :
  (forall i x, keeps f (body i x)) -> keeps f (for_enumerate i l body).
Proof.
  intros Hb. revert i. induction l as [|x l IH]; intros i; [done|].
  simpl. apply keeps_mbind; [apply Hb|done].
Qed.

Lemma keeps_update l body :
  (forall x, keeps f (body x)) -> keeps f (for_each_update l body).
Proof.
  intros Hb. induction l as [|x l IH]; [done|].
  simpl. apply keeps_mbind; [apply Hb|intros].
  apply keeps_mbind; [done|intros; done].
Qed.

Lemma keeps_py_contains k v : keeps f (py_contains k v).
Proof. by destruct v. Qed.

Lemma keeps_py_getitem v k : keeps f (py_getitem v k).
Proof. destruct v; try done. simpl. by destruct (_ !! _). Qed.

Lemma keeps_py_getitem0 v : keeps f (py_getitem0 v).
Proof. destruct v as [| | | |[|? ?]|[|? ?]|]; done. Qed.

Lemma keeps_py_setitem v k x : keeps f (py_setitem v k x).
Proof. by destruct v. Qed.

Lemma keeps_py_iter v : keeps f (py_iter v).
Proof. by destruct v. Qed.

Lemma keeps_py_find_dot v : keeps f (py_find_dot v).
Proof. by destruct v. Qed.

Lemma keeps_py_split_dot v : keeps f (py_split_dot v).
Proof. by destruct v. Qed.

Lemma keeps_py_replace_at v : keeps f (py_replace_at v).
Proof. by destruct v. Qed.

Lemma keeps_py_endswith_dot v : keeps f (py_endswith_dot v).
Proof. by destruct v. Qed.

Lemma keeps_find_master nss : keeps f (find_master nss).
Proof.
  induction nss as [|ns nss IH]; [done|]. simpl.
  apply keeps_mbind; [apply keeps_py_contains|intros [|]];
    [apply keeps_py_getitem|done].
Qed.

End Frames.

(** Proves [keeps] by following the structure of the computation. *)
Ltac frame :=
  repeat first
    [ apply keeps_py_contains | apply keeps_py_getitem
    | apply keeps_py_getitem0 | apply keeps_py_setitem
    | apply keeps_py_iter | apply keeps_py_find_dot
    | apply keeps_py_split_dot | apply keeps_py_replace_at
    | apply keeps_py_endswith_dot | apply keeps_find_master
    | apply keeps_when_body
    | apply keeps_print_to; intros; reflexivity
    | apply keeps_mbind; [|intros]
    | apply keeps_loop; intros
    | apply keeps_enumerate; intros
    | apply keeps_update; intros
    | match goal with
      | |- keeps _ (if ?b then _ else _) => destruct b
      | |- keeps _ (match ?v with PNone => _ | _ => _ end) => destruct v
      | |- keeps _ (ret _) => intros ?; reflexivity
      | |- keeps _ (mret _) => intros ?; reflexivity
      | |- keeps _ (raise _) => intros ?; reflexivity
      | |- keeps _ (sys_exit _) => intros ?; reflexivity
      | |- keeps _ (print _) => unfold print
      end ].

(** ** Streams the functions of the script leave alone *)
Section FrameFacts.

Variable str_other : pyval -> string.

Lemma normalize_keeps_world definition : keeps id (normalize definition).
Proof. unfold normalize, normalize_entry. frame. Qed.

Lemma build_header_keeps {X} (f : world -> X) h definition dont_abbrev :
  (forall s w, f (write h s w) = f w) ->
  keeps f (build_header str_other h definition dont_abbrev).
Proof.
  intros Hf. unfold build_header.
  frame; apply keeps_print_to; intros; apply Hf.
Qed.

Lemma parse_yml_keeps_ofile src : keeps ofile (parse_yml src).
Proof.
  destruct src; unfold parse_yml, fatal_checks, entry_checks, normalize,
    check_top_level, check_fqdn, check_soa_required, check_soa_optional,
    check_entry, normalize_entry; frame.
Qed.

End FrameFacts.

(** ** Where [sys.exit] cannot happen *)
Section NeverExits.

Lemma never_exits_bind {A B} (m : M A) (k : A -> M B) :
  never_exits m -> (forall a, never_exits (k a)) -> never_exits (m ≫= k).
Proof.
  intros Hm Hk w c. rewrite bind_run. specialize (Hm w).
  destruct (m w) as [[a|c'|x] w']; simpl in *; try done.
  - apply Hk.
  - by destruct (Hm c').
Qed.

Lemma never_exits_when c body :
  never_exits body -> never_exits (when c body).
Proof. by destruct c. Qed.

Lemma never_exits_loop {A} (l : list A) body :
  (forall x, never_exits (body x)) -> never_exits (for_each l body).
Proof.
  intros Hb. induction l as [|x l IH]; [done|].
  simpl. apply never_exits_bind; [apply Hb|done].
Qed.

Lemma never_exits_enumerate {A} i (l : list A) body :
  (forall i x, never_exits (body i x)) ->
  never_exits (for_enumerate i l body).
Proof.
  intros Hb. revert i. induction l as [|x l IH]; intros i; [done|].
  simpl. apply never_exits_bind; [apply Hb|done].
Qed.

Lemma never_exits_update l body :
  (forall x, never_exits (body x)) -> never_exits (for_each_update l body).
Proof.
  intros Hb. induction l as [|x l IH]; [done|].
  simpl. apply never_exits_bind; [apply Hb|intros].
  apply never_exits_bind; [done|intros; done].
Qed.

Lemma never_exits_contains k v : never_exits (py_contains k v).
Proof. by destruct v. Qed.

Lemma never_exits_getitem v k : never_exits (py_getitem v k).
Proof. destruct v; try done. simpl. by destruct (_ !! _). Qed.

Lemma never_exits_getitem0 v : never_exits (py_getitem0 v).
Proof. destruct v as [| | | |[|? ?]|[|? ?]|]; done. Qed.

Lemma never_exits_setitem v k x : never_exits (py_setitem v k x).
Proof. by destruct v. Qed.

Lemma never_exits_iter v : never_exits (py_iter v).
Proof. by destruct v. Qed.

Lemma never_exits_find_dot v : never_exits (py_find_dot v).
Proof. by destruct v. Qed.

Lemma never_exits_split_dot v : never_exits (py_split_dot v).
Proof. by destruct v. Qed.

Lemma never_exits_replace_at v : never_exits (py_replace_at v).
Proof. by destruct v. Qed.

Lemma never_exits_find_master nss : never_exits (find_master nss).
Proof.
  induction nss as [|ns nss IH]; [done|]. simpl.
  apply never_exits_bind; [apply never_exits_contains|intros [|]];
    [apply never_exits_getitem|done].
Qed.

End NeverExits.

(** Proves [never_exits] by following the structure of the computation. *)
Ltac no_exit :=
  repeat first
    [ apply never_exits_contains | apply never_exits_getitem
    | apply never_exits_getitem0 | apply never_exits_setitem
    | apply never_exits_iter | apply never_exits_find_dot
    | apply never_exits_split_dot | apply never_exits_replace_at
    | apply never_exits_find_master
    | apply never_exits_when
    | apply never_exits_bind; [|intros]
    | apply never_exits_loop; intros
    | apply never_exits_enumerate; intros
    | apply never_exits_update; intros
    | match goal with
      | |- never_exits (if ?b then _ else _) => destruct b
      | |- never_exits (match ?v with PNone => _ | _ => _ end) => destruct v
      | |- never_exits (ret _) => intros ? ?; discriminate
      | |- never_exits (mret _) => intros ? ?; discriminate
      | |- never_exits (raise _) => intros ? ?; discriminate
      | |- never_exits (print_to _ _) => intros ? ?; discriminate
      | |- never_exits (print _) => intros ? ?; discriminate
      end ].

(** * Further properties *)
(** X1.  Outside the fatal checks nothing calls [sys.exit]: the entry
    checks, [normalize] and the three emitters end by returning or by an
    uncaught exception, on every document. *)
Theorem only_fatal_checks_exit str_other h definition dont_abbrev :
  never_exits (entry_checks definition)
  /\ never_exits (normalize definition)
  /\ never_exits (build_header str_other h definition dont_abbrev)
  /\ never_exits (build_forward_db str_other h definition dont_abbrev)
  /\ never_exits (build_reverse_db str_other h definition dont_abbrev).
Proof.
  repeat split.
  - unfold entry_checks, check_entry. no_exit.
  - unfold normalize, normalize_entry. no_exit.
  - unfold build_header. no_exit.
  - unfold build_forward_db, build_header, build_ns, forward_host,
      entry_name. no_exit.
  - unfold build_reverse_db, build_header, build_ns, reverse_host,
      entry_name. no_exit.
Qed.

(** X2.  [normalize] writes to no stream and no file, whether it returns
    or raises. *)
Theorem normalize_prints_nothing definition w :
  (normalize definition w).2 = w.
Proof. apply (normalize_keeps_world definition w). Qed.

(** X3.  The emitters never write to [sys.stderr]; with [sys.stdout] as
    sink they leave the output file alone, and reverse emission into the
    output file writes nothing to [sys.stdout]. *)
Theorem emitters_respect_streams str_other definition dont_abbrev :
  keeps stdout (build_reverse_db str_other Hfile definition dont_abbrev)
  /\ keeps stderr (build_reverse_db str_other Hfile definition dont_abbrev)
  /\ keeps stderr (build_forward_db str_other Hfile definition dont_abbrev)
  /\ keeps stderr (build_forward_db str_other Hstdout definition dont_abbrev)
  /\ keeps ofile (build_forward_db str_other Hstdout definition dont_abbrev)
  /\ keeps stderr (build_reverse_db str_other Hstdout definition dont_abbrev)
  /\ keeps ofile (build_reverse_db str_other Hstdout definition dont_abbrev).
Proof.
  repeat split;
    unfold build_forward_db, build_reverse_db, build_header, build_ns,
      forward_host, reverse_host, entry_name; frame.
Qed.

(** X4.  [parse_yml] never touches the output file, whatever the source
    resolves to and however validation ends. *)
Theorem parse_yml_leaves_file src : keeps ofile (parse_yml src).
Proof. apply parse_yml_keeps_ofile. Qed.

(** ** The fatal checks, key by key *)
Section FatalRun.

Implicit Types (dm soa : gmap string pyval) (w : world).

Lemma for_each_passed {A} (pre rest : list A) (body : A -> M unit) w :
  Forall (fun x => body x w = (Return (), w)) pre ->
  for_each (pre ++ rest) body w = for_each rest body w.
Proof.
  induction 1 as [|x pre Hx Hpre IH]; [done|].
  simpl app. by rewrite for_each_cons, Hx.
Qed.

(** The fatal checks on a mapping whose required keys all pass: only the
    test on [serial] is left. *)
Lemma fatal_checks_run dm soa ttl zone net mail nss hs w :
  dm !! "ttl" = Some (PStr ttl) ->
  dm !! "domainBase" = Some (PStr zone) ->
  dm !! "networkBase" = Some (PStr net) ->
  dm !! "soa" = Some (PDict soa) ->
  dm !! "nameservers" = Some (PList nss) ->
  dm !! "hosts" = Some (PList hs) ->
  endswith dot zone = true ->
  soa !! "mail" = Some (PStr mail) ->
  (forall k, k ∈ ["refresh"; "retry"; "expire"; "ttl"] ->
             exists v, soa !! k = Some v /\ int_or_str v = true) ->
  fatal_checks (PDict dm) w
  = match soa !! "serial" with
    | Some v =>
        if isinstance v Tint then (Return (), w)
        else (Exit 1, write Hstdout (msg_must_be "serial" Tint) w)
    | None => (Return (), w)
    end.
Proof.
  intros Httl Hzone Hnet Hsoa Hnss Hhs Hdot Hmail Htimers.
  destruct (Htimers "refresh") as (v1 & E1 & T1); [by repeat constructor|].
  destruct (Htimers "retry") as (v2 & E2 & T2); [by repeat constructor|].
  destruct (Htimers "expire") as (v3 & E3 & T3); [by repeat constructor|].
  destruct (Htimers "ttl") as (v4 & E4 & T4); [by repeat constructor|].
  unfold int_or_str in *.
  unfold fatal_checks, TOP_LEVEL_REQUIRED, SOA_REQUIRED, SOA_OPTIONAL.
  rewrite bind_run.
  rewrite for_each_cons, check_top_level_dict, Httl. cbv beta iota delta [isinstance].
  rewrite for_each_cons, check_top_level_dict, Hzone. cbv beta iota delta [isinstance].
  rewrite for_each_cons, check_top_level_dict, Hnet. cbv beta iota delta [isinstance].
  rewrite for_each_cons, check_top_level_dict, Hsoa. cbv beta iota delta [isinstance].
  rewrite for_each_cons, check_top_level_dict, Hnss. cbv beta iota delta [isinstance].
  rewrite for_each_cons, check_top_level_dict, Hhs. cbv beta iota delta [isinstance].
  change (for_each [] (check_top_level (PDict dm)) w) with (Return (), w).
  cbv beta iota. rewrite bind_run, (check_fqdn_dict _ _ _ Hzone), Hdot.
  rewrite bind_run.
  rewrite for_each_cons, (check_soa_required_dict _ _ _ _ _ Hsoa), Hmail.
  cbv beta iota delta [existsb isinstance orb].
  rewrite for_each_cons, (check_soa_required_dict _ _ _ _ _ Hsoa), E1, T1.
  rewrite for_each_cons, (check_soa_required_dict _ _ _ _ _ Hsoa), E2, T2.
  rewrite for_each_cons, (check_soa_required_dict _ _ _ _ _ Hsoa), E3, T3.
  rewrite for_each_cons, (check_soa_required_dict _ _ _ _ _ Hsoa), E4, T4.
  change (for_each [] (check_soa_required (PDict dm)) w) with (Return (), w).
  cbv beta iota.
  rewrite for_each_cons, (check_soa_optional_dict _ _ _ _ _ Hsoa).
  destruct (soa !! "serial") as [[]|]; reflexivity.
Qed.

End FatalRun.

(** X5.  The fatal checks return, having printed nothing, exactly on the
    documents that satisfy the schema [fatal_ok]. *)
Theorem fatal_checks_decide_schema raw w :
  fatal_ok raw <-> fatal_checks raw w = (Return (), w).
Proof.
  split.
  - intros Hok. by destruct (fatal_checks_spec raw w) as [[_ ?]|[? _]].
  - intros H. destruct (fatal_checks_spec raw w) as [[Hok _]|[_ [Hs _]]];
      [done|]. rewrite H in Hs. done.
Qed.

(** X6.  On a mapping, the first key of [TOP_LEVEL_REQUIRED], in the order
    of the table, that is missing or of the wrong class ends the process
    with status 1 and is the only one reported: [Required key ... Not
    Found] when it is missing, [Key ... must be ...] otherwise. *)
Theorem first_top_level_failure_reported dm pre key t post w :
  TOP_LEVEL_REQUIRED = pre ++ (key, t) :: post ->
  Forall (fun kt => exists v, dm !! kt.1 = Some v
                              /\ isinstance v kt.2 = true) pre ->
  lacks (PDict dm) key (fun x => isinstance x t) ->
  fatal_checks (PDict dm) w
  = (Exit 1,
     write Hstdout
       (match dm !! key with
        | None => msg_required key
        | Some _ => msg_must_be key t
        end) w).
Proof.
  intros Hlist Hpre Hlacks. unfold fatal_checks. rewrite Hlist, bind_run.
  rewrite for_each_passed.
  - rewrite for_each_cons, check_top_level_dict.
    unfold lacks, field in Hlacks.
    destruct (dm !! key) as [v|]; [by rewrite Hlacks|done].
  - eapply Forall_impl; [exact Hpre|].
    intros [k t'] (v & Hv & Ht). simpl in *.
    by rewrite check_top_level_dict, Hv, Ht.
Qed.

(** X6: [networkBase] is an integer and [soa] is missing; only the former
    is reported. *)
Lemma first_top_level_failure_reported_witness :
  fatal_checks
    (dict [("ttl", PStr "3600"); ("domainBase", PStr "example.com.");
           ("networkBase", PInt 10)]) world0
  = (Exit 1, World [msg_must_be "networkBase" Tstr] [] None).
Proof.
  unfold dict.
  rewrite (first_top_level_failure_reported _
             [("ttl", Tstr); ("domainBase", Tstr)] "networkBase" Tstr
             [("soa", Tdict); ("nameservers", Tlist); ("hosts", Tlist)]).
  - vm_compute. reflexivity.
  - reflexivity.
  - repeat constructor; eexists; split; vm_compute; reflexivity.
  - vm_compute. reflexivity.
Defined.

(** X7.  On a document that satisfies the schema once [serial] is taken
    out of [soa], a [serial] that is present decides the fatal checks: they
    pass when it is an [int] (a boolean counts) and end the process with
    status 1 and the message for [serial] otherwise. *)
Theorem bad_serial_is_fatal dm soa v w :
  dm !! "soa" = Some (PDict soa) ->
  fatal_ok (PDict (<["soa" := PDict (delete "serial" soa)]> dm)) ->
  soa !! "serial" = Some v ->
  fatal_checks (PDict dm) w
  = if isinstance v Tint then (Return (), w)
    else (Exit 1, write Hstdout (msg_must_be "serial" Tint) w).
Proof.
  intros Hsoa Hok Hserial.
  inversion Hok as [dm' soa' ttl zone net mail nss hs
    Httl Hzone Hnet Hsoa' Hnss Hhs Hdot Hmail Htimers _ Hdm]. subst dm'.
  rewrite lookup_insert_ne in Httl, Hzone, Hnet, Hnss, Hhs by done.
  rewrite lookup_insert_eq in Hsoa'. injection Hsoa' as <-.
  rewrite lookup_delete_ne in Hmail by done.
  rewrite (fatal_checks_run dm soa ttl zone net mail nss hs w); try done.
  - by rewrite Hserial.
  - intros k Hk. destruct (Htimers k Hk) as (x & Hx & Hi).
    exists x. split; [|done]. rewrite lookup_delete_ne in Hx; [done|].
    intros <-. repeat (apply elem_of_cons in Hk as [Hk|Hk]; [done|]).
    by apply elem_of_nil in Hk.
Qed.

(** X5: [sample_zone] satisfies the schema, [sample_no_zone] does not. *)
Lemma fatal_checks_decide_schema_witness :
  fatal_ok sample_zone /\ ~ fatal_ok sample_no_zone.
Proof.
  split.
  - apply (fatal_checks_decide_schema sample_zone world0).
    vm_compute. reflexivity.
  - intros H. apply (fatal_checks_decide_schema sample_no_zone world0) in H.
    vm_compute in H. discriminate H.
Defined.

(** X7: a quoted serial is refused, a boolean one is accepted. *)
Lemma bad_serial_is_fatal_witness :
  fatal_checks (sample_with_serial (PStr "2024")) world0
  = (Exit 1, World [msg_must_be "serial" Tint] [] None)
  /\ fatal_checks (sample_with_serial (PBool true)) world0
     = (Return (), world0).
Proof.
  unfold sample_with_serial, soa_with_serial, dict. split.
  - erewrite (bad_serial_is_fatal _ _ (PStr "2024")).
    + vm_compute. reflexivity.
    + vm_compute. reflexivity.
    + apply (fatal_checks_Return _ world0 world0). vm_compute. reflexivity.
    + vm_compute. reflexivity.
  - erewrite (bad_serial_is_fatal _ _ (PBool true)).
    + vm_compute. reflexivity.
    + vm_compute. reflexivity.
    + apply (fatal_checks_Return _ world0 world0). vm_compute. reflexivity.
    + vm_compute. reflexivity.
Defined.

(** X8.  A document that is no mapping never gets past the first check:
    [parse_yml] ends with an uncaught [TypeError], nothing printed, or
    with the diagnostic for [ttl] and status 1; for a document that is
    neither a string nor a list, such as the [None] of an empty file, it
    is the [TypeError]. *)
Theorem non_mapping_document_fails yml_obj w :
  is_dict yml_obj = false ->
  (parse_yml (Loaded yml_obj) w = (Raise TypeError, w)
   \/ parse_yml (Loaded yml_obj) w
      = (Exit 1, write Hstdout (msg_required "ttl") w))
  /\ (isinstance yml_obj Tstr = false -> isinstance yml_obj Tlist = false ->
      parse_yml (Loaded yml_obj) w = (Raise TypeError, w)).
Proof.
  intros Hd. unfold parse_yml, fatal_checks, TOP_LEVEL_REQUIRED.
  rewrite !bind_run, for_each_cons. unfold check_top_level.
  destruct yml_obj as [| | | |s|l|dm]; try discriminate Hd;
    try (split; [by left|done]).
  - run. split; [|done].
    destruct (is_substring "ttl" s); run; [by left|by right].
  - run. split; [|done].
    destruct (existsb _ l); run; [by left|by right].
Qed.

(** X8: an empty document, and a list. *)
Lemma non_mapping_document_fails_witness :
  parse_yml (Loaded PNone) world0 = (Raise TypeError, world0)
  /\ (parse_yml (Loaded (PList [PStr "a"])) world0 = (Raise TypeError, world0)
      \/ parse_yml (Loaded (PList [PStr "a"])) world0
         = (Exit 1, World [msg_required "ttl"] [] None)).
Proof.
  split.
  - apply (non_mapping_document_fails PNone world0); reflexivity.
  - apply (non_mapping_document_fails (PList [PStr "a"]) world0).
    reflexivity.
Defined.



(** ** [normalize] on its own result *)
Section NormalizeTwice.

Implicit Types (dm em soa : gmap string pyval) (w : world).








End NormalizeTwice.





(** ** Emission that stops half-way *)
Section Partial.

Variable str_other : pyval -> string.
Implicit Types (dm em : gmap string pyval) (w : world) (h : handle).

Lemma for_each_app {A} (l1 l2 : list A) (body : A -> M unit) w :
  for_each (l1 ++ l2) body w
  = match for_each l1 body w with
    | (Return _, w') => for_each l2 body w'
    | (Exit c, w') => (Exit c, w')
    | (Raise e, w') => (Raise e, w')
    end.
Proof.
  revert w. induction l1 as [|x l1 IH]; intros w; [done|].
  simpl app. rewrite !for_each_cons.
  destruct (body x w) as [[[]|c|e] w']; [apply IH|done..].
Qed.

Lemma forward_host_without_ip h d zone dont_abbrev host w :
  field d "domainBase" = Some (PStr zone) ->
  bare host = true -> field host "ip" = None ->
  forward_host str_other h d dont_abbrev host w = (Raise KeyError, w).
Proof.
  intros Hz Hb Hip. unfold forward_host.
  rewrite bind_run, (entry_name_bare _ _ _ _ _ _ Hz Hb).
  destruct (bare_inv _ Hb) as (em & hn & -> & Hhn & _).
  simpl in Hip. run. by rewrite Hip.
Qed.

Lemma reverse_host_odd_ip h d zone host v w :
  field d "domainBase" = Some (PStr zone) ->
  bare host = true -> field host "ip" = Some v ->
  isinstance v Tstr = false ->
  reverse_host str_other h d false host w = (Raise AttributeError, w).
Proof.
  intros Hz Hb Hip Hv. unfold reverse_host.
  destruct (bare_inv _ Hb) as (em & hn & -> & Hhn & _).
  simpl in Hip. run. rewrite Hip. run. by destruct v.
Qed.

Lemma forallb_app_inv {A} (f : A -> bool) l1 x l2 :
  forallb f (l1 ++ x :: l2) = true ->
  forallb f l1 = true /\ f x = true /\ forallb f l2 = true.
Proof.
  rewrite forallb_app. simpl.
  intros [H1 [H2 H3]%andb_prop]%andb_prop. done.
Qed.

Lemma ready_hosts d :
  ready d ->
  field d "hosts" = Some (PList (entries d "hosts"))
  /\ forallb bare (entries d "hosts") = true.
Proof.
  intros Hr. destruct Hr as [dm soa ttl zone mail nss hs
    Httl Hzone Hsoa Hmail Htimers Hnss Hhs Hbn Hbh].
  unfold entries. simpl. by rewrite Hhs.
Qed.

Lemma forward_stops h d dont_abbrev pre host post w :
  ready d -> entries d "nameservers" <> [] ->
  entries d "hosts" = pre ++ host :: post ->
  forallb (has_ip false) pre = true -> field host "ip" = None ->
  build_forward_db str_other h d dont_abbrev w
  = (Raise KeyError,
     write_all
       (to_handle h (header str_other d dont_abbrev)
        ++ to_handle h (ns_records d dont_abbrev)
        ++ concat (map (forward_records str_other h d dont_abbrev) pre)) w).
Proof.
  intros Hr Hne Hhosts Hpre Hip. unfold build_forward_db.
  rewrite bind_run, (build_header_ready _ _ _ _ _ Hr Hne).
  rewrite bind_run, (build_ns_ready _ _ _ _ _ Hr).
  rewrite !write_all_app.
  destruct (ready_hosts _ Hr) as [Hf Hb]. rewrite Hhosts in Hf, Hb.
  apply forallb_app_inv in Hb as (Hbpre & Hbhost & _).
  destruct d as [| | | | | |dm]; try done. simpl in Hf.
  run. rewrite Hf. run. rewrite for_each_app.
  rewrite (forward_loop_bare _ _ _ _ _ _ _ (ready_zone _ Hr) Hbpre Hpre).
  rewrite for_each_cons.
  by rewrite (forward_host_without_ip _ _ _ _ _ _ (ready_zone _ Hr) Hbhost Hip).
Qed.

Lemma reverse_stops h d pre host v post w :
  ready d -> entries d "nameservers" <> [] ->
  entries d "hosts" = pre ++ host :: post ->
  forallb (has_ip true) pre = true ->
  field host "ip" = Some v -> isinstance v Tstr = false ->
  build_reverse_db str_other h d false w
  = (Raise AttributeError,
     write_all
       (to_handle h (header str_other d false)
        ++ to_handle h (ns_records d false)
        ++ concat (map (reverse_records str_other h d false) pre)) w).
Proof.
  intros Hr Hne Hhosts Hpre Hip Hv. unfold build_reverse_db.
  rewrite bind_run, (build_header_ready _ _ _ _ _ Hr Hne).
  rewrite bind_run, (build_ns_ready _ _ _ _ _ Hr).
  rewrite !write_all_app.
  destruct (ready_hosts _ Hr) as [Hf Hb]. rewrite Hhosts in Hf, Hb.
  apply forallb_app_inv in Hb as (Hbpre & Hbhost & _).
  destruct d as [| | | | | |dm]; try done. simpl in Hf.
  run. rewrite Hf. run. rewrite for_each_app.
  rewrite (reverse_loop_bare _ h _ _ false pre _ (ready_zone _ Hr) Hbpre Hpre).
  rewrite for_each_cons.
  by rewrite (reverse_host_odd_ip _ _ _ _ _ _ (ready_zone _ Hr) Hbhost Hip Hv).
Qed.

End Partial.

(** X12.  Forward emission on a returned document stops with [KeyError]
    at the first host without [ip], after it has written the header, the
    NS block and the records of the hosts before it: the output is left
    incomplete. *)
Theorem forward_emission_stops_at_missing_ip str_other raw w0 d w1 h
    dont_abbrev pre host post w :
  parse_yml (Loaded raw) w0 = (Return d, w1) ->
  entries d "nameservers" <> [] ->
  entries d "hosts" = pre ++ host :: post ->
  forallb (has_ip false) pre = true ->
  field host "ip" = None ->
  build_forward_db str_other h d dont_abbrev w
  = (Raise KeyError,
     write_all
       (to_handle h (header str_other d dont_abbrev)
        ++ to_handle h (ns_records d dont_abbrev)
        ++ concat (map (forward_records str_other h d dont_abbrev) pre)) w).
Proof.
  intros Hr%parse_yml_ready. by apply forward_stops.
Qed.

(** X12: the second of three hosts has no [ip]. *)
Lemma forward_emission_stops_at_missing_ip_witness :
  build_forward_db no_repr Hfile
    (normalized_doc (sample [ns1] [www; www_no_ip; www])) true world0
  = (Raise KeyError,
     World [] []
       (Some (header no_repr
                (normalized_doc (sample [ns1] [www; www_no_ip; www])) true
              ++ ["    IN NS ns1.example.com."; "";
                  "www.example.com.   IN A   10.0.0.5"]))).
Proof.
  rewrite (forward_emission_stops_at_missing_ip no_repr
             (sample [ns1] [www; www_no_ip; www]) world0 _
             (World [msg_entry_required "hosts" 1 "ip"] [] None) Hfile true
             [www] (normalized_entry www_no_ip) [www]).
  - vm_compute. reflexivity.
  - vm_compute. reflexivity.
  - vm_compute. discriminate.
  - vm_compute. reflexivity.
  - vm_compute. reflexivity.
  - vm_compute. reflexivity.
Defined.

(** X13.  Abbreviated reverse emission stops with [AttributeError] at the
    first host whose [ip] is not a string, the validator having accepted
    it, after the header, the NS block and the records of the hosts before
    it; with [dont_abbrev] the same host gets its PTR line. *)
Theorem reverse_emission_needs_string_ip str_other raw w0 d w1 h pre host v
    post w :
  parse_yml (Loaded raw) w0 = (Return d, w1) ->
  entries d "nameservers" <> [] ->
  entries d "hosts" = pre ++ host :: post ->
  forallb (has_ip true) pre = true ->
  field host "ip" = Some v ->
  isinstance v Tstr = false ->
  build_reverse_db str_other h d false w
  = (Raise AttributeError,
     write_all
       (to_handle h (header str_other d false)
        ++ to_handle h (ns_records d false)
        ++ concat (map (reverse_records str_other h d false) pre)) w)
  /\ reverse_host str_other h d true host w
     = (Return (),
        write_all (reverse_records str_other h d true host) w).
Proof.
  intros Hr%parse_yml_ready Hne Hhosts Hpre Hip Hv. split.
  - by eapply reverse_stops.
  - apply (reverse_host_bare _ _ _ (text d "domainBase")).
    + by apply ready_zone.
    + apply (ready_bare d "hosts"); [done|by right|].
      rewrite Hhosts. apply elem_of_app. right. by left.
    + unfold has_ip. rewrite Hip. by destruct v.
Qed.

(** X13: an integer [ip]. *)
Lemma reverse_emission_needs_string_ip_witness :
  build_reverse_db no_repr Hfile
    (normalized_doc (sample [ns1] [www_int_ip])) false world0
  = (Raise AttributeError,
     World [] []
       (Some (header no_repr (normalized_doc (sample [ns1] [www_int_ip]))
                     false
              ++ ["    IN NS ns1"; ""])))
  /\ reverse_host no_repr Hfile (normalized_doc (sample [ns1] [www_int_ip]))
       true www_int_ip world0
     = (Return (), World [] [] (Some ["5    IN PTR www.example.com."])).
Proof.
  assert (parse_yml (Loaded (sample [ns1] [www_int_ip])) world0
          = (Return (normalized_doc (sample [ns1] [www_int_ip])), world0))
    as Hp by (vm_compute; reflexivity).
  destruct (reverse_emission_needs_string_ip no_repr _ _ _ _ Hfile
              [] www_int_ip (PInt 5) [] world0 Hp) as [-> ->].
  - vm_compute. discriminate.
  - vm_compute. reflexivity.
  - vm_compute. reflexivity.
  - vm_compute. reflexivity.
  - vm_compute. reflexivity.
  - vm_compute. split; reflexivity.
Defined.

(** ** Whole runs of [main] *)
Section MainRuns.

Variable str_other : pyval -> string.
Implicit Types (w : world) (h : handle).






Lemma main_run raw w d w1 output dont_abbrev forward reverse :
  parse_yml (Loaded raw) w = (Return d, w1) ->
  main str_other (Loaded raw) output dont_abbrev forward reverse w
  = match output with
    | Some (Refused _) => (Raise OSError, w1)
    | Some (Writable _) =>
        ((if forward
          then build_forward_db str_other Hfile d dont_abbrev
          else if reverse
               then build_reverse_db str_other Hfile d dont_abbrev
               else ret ()) ≫= (fun _ => ret ()))
          (World (stdout w1) (stderr w1) (Some []))
    | None =>
        ((if forward
          then build_forward_db str_other Hstdout d dont_abbrev
          else if reverse
               then build_reverse_db str_other Hstdout d dont_abbrev
               else ret ()) ≫= (fun _ => ret ())) w1
    end.
Proof.
  intros Hp. unfold main. rewrite bind_run, Hp.
  destruct output as [[path|path]|]; reflexivity.
Qed.

End MainRuns.







(** X17.  When the source file is not found or is no YAML, [main] exits
    with status 1 after one, respectively two, lines on [sys.stderr]; it
    prints nothing on [sys.stdout] and does not open the output file. *)
Theorem unreadable_source_exits str_other output dont_abbrev forward reverse
    w :
  main str_other NotFound output dont_abbrev forward reverse w
  = (Exit 1,
     World (stdout w)
       (stderr w ++ ["[ERROR] File Not Found: Please check file path."])
       (ofile w))
  /\ forall err,
       main str_other (Malformed err) output dont_abbrev forward reverse w
       = (Exit 1,
          World (stdout w) (stderr w ++ ["[ERROR] YAML Parse error:"; err])
                (ofile w)).
Proof.
  split; [|intros err]; unfold main, parse_yml; run; simpl;
    by rewrite <- ?app_assoc.
Qed.

(** X20.  When [open] refuses the path given with [-o], [main] has run
    the whole validation, diagnostics included, and dies of the [OSError]
    there: no line of the zone is written anywhere and the output file is
    as it was. *)
Theorem refused_output_stops_main str_other raw w d w1 path dont_abbrev
    forward reverse :
  parse_yml (Loaded raw) w = (Return d, w1) ->
  main str_other (Loaded raw) (Some (Refused path)) dont_abbrev forward
       reverse w
  = (Raise OSError, w1)
  /\ ofile w1 = ofile w.
Proof.
  intros Hp. split.
  - by rewrite (main_run _ _ _ _ _ _ _ _ _ Hp).
  - pose proof (parse_yml_keeps_ofile (Loaded raw) w) as H.
    by rewrite Hp in H.
Qed.

(** X20: an empty path, on a document with a host without [ip]. *)
Lemma refused_output_stops_main_witness :
  main no_repr (Loaded (sample [ns1] [www_no_ip])) (Some (Refused "")) false
       true false world0
  = (Raise OSError, World [msg_entry_required "hosts" 0 "ip"] [] None).
Proof.
  destruct (refused_output_stops_main no_repr (sample [ns1] [www_no_ip])
              world0 (normalized_doc (sample [ns1] [www_no_ip]))
              (World [msg_entry_required "hosts" 0 "ip"] [] None) ""
              false true false) as [-> _].
  - vm_compute. reflexivity.
  - reflexivity.
Defined.

(** ** Keys the emitters never read *)
Section Unread.

Variable str_other : pyval -> string.
Implicit Types (dm soa : gmap string pyval) (w : world) (h : handle).

Lemma py_getitem_insert_ne dm k k' v :
  k <> k' -> py_getitem (PDict (<[k' := v]> dm)) k = py_getitem (PDict dm) k.
Proof. intros Hk. unfold py_getitem. by rewrite lookup_insert_ne. Qed.

Lemma py_getitem_insert_eq dm k v :
  py_getitem (PDict (<[k := v]> dm)) k = ret v.
Proof. unfold py_getitem. by rewrite lookup_insert_eq. Qed.

Lemma py_getitem_Some dm k v :
  dm !! k = Some v -> py_getitem (PDict dm) k = ret v.
Proof. intros H. unfold py_getitem. by rewrite H. Qed.

End Unread.

(** X18.  The emitters never read [networkBase]: setting it to any value
    changes nothing of what forward and reverse emission do. *)
Theorem emission_ignores_network_base str_other h dm v dont_abbrev :
  build_forward_db str_other h (PDict (<["networkBase" := v]> dm)) dont_abbrev
  = build_forward_db str_other h (PDict dm) dont_abbrev
  /\ build_reverse_db str_other h (PDict (<["networkBase" := v]> dm))
       dont_abbrev
     = build_reverse_db str_other h (PDict dm) dont_abbrev.
Proof.
  split;
    unfold build_forward_db, build_reverse_db, build_header, build_ns,
      forward_host, reverse_host, entry_name;
    rewrite !py_getitem_insert_ne by done; reflexivity.
Qed.

(** X19.  The emitters never read [soa.serial]: the validator checks it
    but no line of either zone depends on it. *)
Theorem emission_ignores_serial str_other h dm soa v dont_abbrev :
  dm !! "soa" = Some (PDict soa) ->
  build_forward_db str_other h
    (PDict (<["soa" := PDict (<["serial" := v]> soa)]> dm)) dont_abbrev
  = build_forward_db str_other h (PDict dm) dont_abbrev
  /\ build_reverse_db str_other h
       (PDict (<["soa" := PDict (<["serial" := v]> soa)]> dm)) dont_abbrev
     = build_reverse_db str_other h (PDict dm) dont_abbrev.
Proof.
  intros Hsoa.
  split;
    unfold build_forward_db, build_reverse_db, build_header, build_ns,
      forward_host, reverse_host, entry_name;
    rewrite !py_getitem_insert_ne by done;
    rewrite !py_getitem_insert_eq, !(py_getitem_Some _ _ _ Hsoa);
    cbv beta iota delta [mbind M_bind bind ret];
    rewrite !py_getitem_insert_ne by done; reflexivity.
Qed.

(** X19: [sample_zone] with a serial added. *)
Lemma emission_ignores_serial_witness :
  build_forward_db no_repr Hstdout
    (PDict (<["soa" := PDict (<["serial" := PInt 7]> (soa_of sample_zone))]>
              (mapping_of sample_zone))) false world0
  = build_forward_db no_repr Hstdout sample_zone false world0.
Proof.
  destruct (emission_ignores_serial no_repr Hstdout (mapping_of sample_zone)
              (soa_of sample_zone) (PInt 7) false) as [H _].
  - vm_compute. reflexivity.
  - rewrite H. reflexivity.
Defined.
